(** * multi_tool_agent/agent.py: the city tools, embedded and verified

    The tool functions of [src/multi_tool_agent/agent.py] ([get_weather],
    [get_current_time], [get_city_info], [compare_cities],
    [search_cities_in_database], [get_travel_info]) are translated into Rocq
    functions over the two module-level tables [CITY_DATABASE] and
    [WEATHER_DATA].

    Conventions of the embedding.
    - A Python [str] is a [string]; the operations [lower], [strip], [title]
      and [in] are written out for the ASCII range (characters with a code
      above 127 are outside the modelled domain: they are left unchanged and
      are neither letters nor whitespace).
    - A Python [int] is a [Z]; a Python [float] is the real number it
      approximates ([R]), so rounding is not represented.
    - A [dict] returned by a tool is an association list in insertion order;
      a string built by an f-string is kept as the list of its pieces, each
      replacement field with its value and format specification.
    - An uncaught exception is the outcome [Raise]; the time zone database
      and the system clock are the [Runtime] a function is run in. *)

From Stdlib Require Import Bool List String Ascii ZArith Lia.
From Stdlib Require Import Reals Machin Lra.
Import ListNotations.

Open Scope string_scope.

(* ================================================================= *)
(** ** Python strings (ASCII range) *)

Module PyStr.

Definition code (c : ascii) : nat := nat_of_ascii c.

Definition is_upper (c : ascii) : bool :=
  (65 <=? code c)%nat && (code c <=? 90)%nat.

Definition is_lower (c : ascii) : bool :=
  (97 <=? code c)%nat && (code c <=? 122)%nat.

(** [c.isalpha()] for an ASCII letter: the cased characters. *)
Definition is_cased (c : ascii) : bool := is_upper c || is_lower c.

(** The characters [str.strip()] removes: tab, line feed, vertical tab,
    form feed, carriage return, the four separators 0x1c-0x1f, space. *)
Definition is_space (c : ascii) : bool :=
  ((9 <=? code c)%nat && (code c <=? 13)%nat)
  || ((28 <=? code c)%nat && (code c <=? 32)%nat).

Definition lower_char (c : ascii) : ascii :=
  if is_upper c then ascii_of_nat (code c + 32) else c.

Definition upper_char (c : ascii) : ascii :=
  if is_lower c then ascii_of_nat (code c - 32) else c.

(** [s.lower()] *)
Fixpoint lower (s : string) : string :=
  match s with
  | EmptyString => EmptyString
  | String c r => String (lower_char c) (lower r)
  end.

Fixpoint lstrip (s : string) : string :=
  match s with
  | EmptyString => EmptyString
  | String c r => if is_space c then lstrip r else s
  end.

Fixpoint rstrip (s : string) : string :=
  match s with
  | EmptyString => EmptyString
  | String c r =>
      match rstrip r with
      | EmptyString => if is_space c then EmptyString else String c EmptyString
      | r' => String c r'
      end
  end.

(** [s.strip()] *)
Definition strip (s : string) : string := rstrip (lstrip s).

(** [s] is empty or starts with a character that [strip] keeps. *)
Definition first_not_space (s : string) : Prop :=
  match s with
  | EmptyString => True
  | String c _ => is_space c = false
  end.

(** [s.title()]: a cased character is upper-cased when the character before
    it is not cased, and lower-cased otherwise. *)
Fixpoint title_from (previous_is_cased : bool) (s : string) : string :=
  match s with
  | EmptyString => EmptyString
  | String c r =>
      String (if previous_is_cased then lower_char c else upper_char c)
             (title_from (is_cased c) r)
  end.

Definition title (s : string) : string := title_from false s.

Fixpoint starts_with (p s : string) : bool :=
  match p, s with
  | EmptyString, _ => true
  | String _ _, EmptyString => false
  | String a p', String b s' => Ascii.eqb a b && starts_with p' s'
  end.

(** [sub in s] for two strings: [sub] occurs in [s] as a substring. *)
Fixpoint contains (s sub : string) : bool :=
  starts_with sub s
  || match s with
     | EmptyString => false
     | String _ r => contains r sub
     end.

(** [sep.join(parts)] *)
Fixpoint join (sep : string) (parts : list string) : string :=
  match parts with
  | [] => EmptyString
  | [p] => p
  | p :: rest => p ++ sep ++ join sep rest
  end.

End PyStr.

Import PyStr.

(* ================================================================= *)
(** ** Data: the dataclass [CityInfo] and the two tables *)

Record CityInfo := mkCityInfo {
  name : string;
  country : string;
  timezone : string;
  population : Z;
  coordinates : R * R;
  currency : string;
  language : string
}.

Definition CITY_DATABASE : list (string * CityInfo) :=
  [ ("new york",
     mkCityInfo "New York" "United States" "America/New_York"
                8336817 (40.7128, -74.0060)%R "USD" "English");
    ("london",
     mkCityInfo "London" "United Kingdom" "Europe/London"
                9648110 (51.5074, -0.1278)%R "GBP" "English");
    ("tokyo",
     mkCityInfo "Tokyo" "Japan" "Asia/Tokyo"
                13960000 (35.6762, 139.6503)%R "JPY" "Japanese");
    ("lagos",
     mkCityInfo "Lagos" "Nigeria" "Africa/Lagos"
                15388000 (6.5244, 3.3792)%R "NGN" "English");
    ("paris",
     mkCityInfo "Paris" "France" "Europe/Paris"
                2165423 (48.8566, 2.3522)%R "EUR" "French");
    ("dubai",
     mkCityInfo "Dubai" "UAE" "Asia/Dubai"
                3331420 (25.2048, 55.2708)%R "AED" "Arabic");
    ("sydney",
     mkCityInfo "Sydney" "Australia" "Australia/Sydney"
                5312163 (-33.8688, 151.2093)%R "AUD" "English");
    ("mumbai",
     mkCityInfo "Mumbai" "India" "Asia/Kolkata"
                20411274 (19.0760, 72.8777)%R "INR" "Hindi/English") ].

(** An entry of a weather record's ["alerts"] list. *)
Record Alert := mkAlert {
  alert_type : string;
  severity : string;
  description : string;
  expires : string
}.

(** A value of [WEATHER_DATA]: a dict with the same thirteen keys for every
    city, kept as a record with one field per key. *)
Record Weather := mkWeather {
  condition : string;
  temperature_c : Z;
  temperature_f : Z;
  humidity : Z;
  wind_speed : Z;
  wind_direction : string;
  pressure : R;
  visibility : Z;
  uv_index : Z;
  air_quality : string;
  feels_like_c : Z;
  feels_like_f : Z;
  alerts : list Alert
}.

Definition WEATHER_DATA : list (string * Weather) :=
  [ ("new york",
     mkWeather "sunny" 25 77 60 15 "SW" 1013.2%R 10 6 "Good" 27 81 []);
    ("london",
     mkWeather "cloudy" 18 64 75 10 "W" 1008.5%R 8 3 "Moderate" 16 61 []);
    ("tokyo",
     mkWeather "partly cloudy" 28 82 65 8 "E" 1015.1%R 12 7 "Good" 31 88 []);
    ("lagos",
     mkWeather "thunderstorms" 26 79 94 5 "W" 1009.8%R 5 4 "Moderate" 28 83
       [ mkAlert "Thunderstorm" "moderate" "Scattered thunderstorms expected"
                 "2025-06-03T20:00:00" ]);
    ("paris",
     mkWeather "rainy" 16 61 80 20 "NW" 1005.2%R 6 2 "Good" 14 57 []) ].

(** [table[key]] and [key in table] for a table keyed by strings. *)
Fixpoint lookup {A : Type} (key : string) (table : list (string * A)) : option A :=
  match table with
  | [] => None
  | (k, v) :: rest => if String.eqb key k then Some v else lookup key rest
  end.

Definition member {A : Type} (key : string) (table : list (string * A)) : bool :=
  match lookup key table with Some _ => true | None => false end.

Definition keys {A : Type} (table : list (string * A)) : list string :=
  map fst table.

(* ================================================================= *)
(** ** Exceptions, outcomes and the runtime *)

Inductive exn :=
| KeyError (key : string)
| NameError (name : string)
| ValueError (message : string)
| ZoneInfoNotFoundError (key : string).

(** The outcome of evaluating an expression: a value, or an exception that
    propagates. *)
Inductive outcome (A : Type) :=
| Return (a : A)
| Raise (e : exn).

Arguments Return {A} a.
Arguments Raise {A} e.

Definition obind {A B : Type} (m : outcome A) (k : A -> outcome B) : outcome B :=
  match m with
  | Return a => k a
  | Raise e => Raise e
  end.

Notation "x <-? m ;; k" := (obind m (fun x => k))
  (at level 61, m at next level, right associativity).

(** [table[key]]: raises [KeyError] when the key is absent. *)
Definition getitem {A : Type} (table : list (string * A)) (key : string) : outcome A :=
  match lookup key table with
  | Some v => Return v
  | None => Raise (KeyError key)
  end.

(** A [datetime] made by [datetime.datetime.now(tz)]: the instant read from
    the clock (seconds since the epoch), the zone and the zone's offset from
    UTC at that instant, in seconds. *)
Record datetime := mkDatetime {
  instant : Z;
  tzkey : string;
  utcoffset : Z
}.

(** What a tool reads from outside the module.
    - [tzdata key] is [None] when [ZoneInfo(key)] raises
      [ZoneInfoNotFoundError], and otherwise gives the zone's offset from UTC
      (in seconds) at every instant;
    - [clock n] is the instant the [n]-th call of [datetime.datetime.now]
      reads. *)
Record Runtime := mkRuntime {
  tzdata : string -> option (Z -> Z);
  clock : nat -> Z
}.

(** A [ZoneInfo] object. *)
Record tzinfo := mkTz {
  tz_key : string;
  tz_offset : Z -> Z
}.

(** Computations that read the clock: the state is the number of calls of
    [datetime.datetime.now] made so far; an exception keeps it. *)
Definition M (A : Type) : Type := nat -> outcome A * nat.

Definition ret {A : Type} (a : A) : M A := fun n => (Return a, n).

Definition raise {A : Type} (e : exn) : M A := fun n => (Raise e, n).

Definition bind {A B : Type} (m : M A) (k : A -> M B) : M B :=
  fun n =>
    match m n with
    | (Return a, n') => k a n'
    | (Raise e, n') => (Raise e, n')
    end.

Notation "x <- m ;; k" := (bind m (fun x => k))
  (at level 61, m at next level, right associativity).

Definition lift {A : Type} (o : outcome A) : M A := fun n => (o, n).

(** [try: body  except Exception as e: handler e] *)
Definition try_except {A : Type} (body : M A) (handler : exn -> M A) : M A :=
  fun n =>
    match body n with
    | (Return a, n') => (Return a, n')
    | (Raise e, n') => handler e n'
    end.

(** [ZoneInfo(key)] *)
Definition ZoneInfo (rt : Runtime) (key : string) : M tzinfo :=
  match tzdata rt key with
  | Some offset => ret (mkTz key offset)
  | None => raise (ZoneInfoNotFoundError key)
  end.

(** [datetime.datetime.now(tz)] *)
Definition now (rt : Runtime) (tz : tzinfo) : M datetime :=
  fun n =>
    let t := clock rt n in
    (Return (mkDatetime t (tz_key tz) (tz_offset tz t)), S n).

(** The result of running a tool from a fresh clock count. *)
Definition run {A : Type} (m : M A) : outcome A := fst (m 0%nat).

(* ================================================================= *)
(** ** Values returned by the tools *)

(** A piece of an f-string: literal text (or a [str] value substituted as it
    is), or a replacement field with the value formatted and its format. *)
Inductive piece :=
| Txt (s : string)
| Int (z : Z)                          (* {z} *)
| IntComma (z : Z)                     (* {z:,} *)
| Float (x : R)                        (* {x} *)
| Fixed (digits : nat) (x : R)         (* {x:.<digits>f} *)
| Strftime (format : string) (d : datetime)   (* d.strftime(format) *)
| Isoformat (d : datetime)             (* d.isoformat() *)
| ExnStr (e : exn).                    (* str(e) *)

Definition text : Type := list piece.

(* [value] nests [list] and [prod]; no induction scheme over it is used. *)
#[local] Set Warnings "-register-all".

Inductive value :=
| VNone
| VStr (s : string)
| VText (t : text)
| VInt (z : Z)
| VFloat (x : R)
| VTuple (items : list value)
| VList (items : list value)
| VDict (items : list (string * value)).

Definition dict : Type := list (string * value).

Definition nl : string := String (ascii_of_nat 10) EmptyString.

(** [d["status"] == "error"] for a result built by one of the tools. *)
Definition status_is_error (d : dict) : bool :=
  match lookup "status" d with
  | Some (VStr s) => String.eqb s "error"
  | _ => false
  end.

Definition status (d : dict) : option value := lookup "status" d.

(** [city_info.__dict__] *)
Definition CityInfo_dict (c : CityInfo) : value :=
  VDict [ ("name", VStr (name c)); ("country", VStr (country c));
          ("timezone", VStr (timezone c)); ("population", VInt (population c));
          ("coordinates", VTuple [VFloat (fst (coordinates c));
                                  VFloat (snd (coordinates c))]);
          ("currency", VStr (currency c)); ("language", VStr (language c)) ].

Definition Alert_dict (a : Alert) : value :=
  VDict [ ("type", VStr (alert_type a)); ("severity", VStr (severity a));
          ("description", VStr (description a)); ("expires", VStr (expires a)) ].

(** A value of [WEATHER_DATA] as the dict it is in the source. *)
Definition Weather_dict (w : Weather) : value :=
  VDict [ ("condition", VStr (condition w));
          ("temperature_c", VInt (temperature_c w));
          ("temperature_f", VInt (temperature_f w));
          ("humidity", VInt (humidity w));
          ("wind_speed", VInt (wind_speed w));
          ("wind_direction", VStr (wind_direction w));
          ("pressure", VFloat (pressure w));
          ("visibility", VInt (visibility w));
          ("uv_index", VInt (uv_index w));
          ("air_quality", VStr (air_quality w));
          ("feels_like_c", VInt (feels_like_c w));
          ("feels_like_f", VInt (feels_like_f w));
          ("alerts", VList (map Alert_dict (alerts w))) ].

(* ================================================================= *)
(** ** [get_weather] *)

(** [", ".join([city.title() for city in table.keys()])] *)
Definition available_cities {A : Type} (table : list (string * A)) : string :=
  join ", " (map title (keys table)).

Definition alert_lines (l : list Alert) : text :=
  flat_map (fun alert =>
              [ Txt (nl ++ "• "); Txt (alert_type alert); Txt " (";
                Txt (severity alert); Txt "): "; Txt (description alert) ]) l.

Definition get_weather (city : string) (detailed : bool) : dict :=
  let city_lower := strip (lower city) in
  match lookup city_lower WEATHER_DATA with
  | Some weather =>
      let report :=
        [ Txt "🌤️ Weather in "; Txt (title city); Txt ": ";
          Txt (title (condition weather)); Txt nl;
          Txt "🌡️ Temperature: "; Int (temperature_c weather); Txt "°C (";
          Int (temperature_f weather); Txt ("°F)" ++ nl);
          Txt "🤔 Feels like: "; Int (feels_like_c weather); Txt "°C (";
          Int (feels_like_f weather); Txt ("°F)" ++ nl);
          Txt "💧 Humidity: "; Int (humidity weather); Txt ("%" ++ nl);
          Txt "💨 Wind: "; Int (wind_speed weather); Txt " km/h ";
          Txt (wind_direction weather) ] in
      let report :=
        if detailed then
          app report
          [ Txt (nl ++ "📊 Pressure: "); Float (pressure weather);
            Txt (" hPa" ++ nl);
            Txt "👁️ Visibility: "; Int (visibility weather); Txt (" km" ++ nl);
            Txt "☀️ UV Index: "; Int (uv_index weather); Txt nl;
            Txt "🏭 Air Quality: "; Txt (air_quality weather) ]
        else report in
      let report :=
        match alerts weather with
        | [] => report
        | _ :: _ =>
            app (app report [ Txt (nl ++ nl ++ "⚠️ Weather Alerts:") ])
                (alert_lines (alerts weather))
        end in
      [ ("status", VStr "success");
        ("report", VText report);
        ("raw_data", if detailed then Weather_dict weather else VNone) ]
  | None =>
      [ ("status", VStr "error");
        ("error_message",
         VText [ Txt "Weather data for '"; Txt city;
                 Txt "' not available. Try: ";
                 Txt (available_cities WEATHER_DATA);
                 Txt ". Or I can search the web for it." ]) ]
  end.

(* ================================================================= *)
(** ** [get_current_time] *)

(** The dict [formats] built at lines 188-193. *)
Definition formats (now : datetime) : list (string * text) :=
  [ ("standard", [ Strftime "%A, %B %d, %Y at %I:%M:%S %p %Z" now ]);
    ("business", [ Strftime "%Y-%m-%d %H:%M %Z" now ]);
    ("iso", [ Isoformat now ]);
    ("relative", [ Strftime "%I:%M %p" now; Txt " (UTC";
                   Strftime "%z" now; Txt ")" ]) ].

(** [table.get(key, default)] *)
Definition get {A : Type} (table : list (string * A)) (key : string) (default : A) : A :=
  match lookup key table with
  | Some v => v
  | None => default
  end.

Definition get_current_time (rt : Runtime) (city format_type : string) : M dict :=
  let city_lower := strip (lower city) in
  if negb (member city_lower CITY_DATABASE) then
    ret [ ("status", VStr "error");
          ("error_message",
           VText [ Txt "Time zone data for '"; Txt city;
                   Txt "' not available. Try: ";
                   Txt (available_cities CITY_DATABASE);
                   Txt ". Or I can search the web for it." ]) ]
  else
    try_except
      (city_info <- lift (getitem CITY_DATABASE city_lower) ;;
       tz <- ZoneInfo rt (timezone city_info) ;;
       now <- now rt tz ;;
       standard <- lift (getitem (formats now) "standard") ;;
       let formatted_time := get (formats now) format_type standard in
       ret [ ("status", VStr "success");
             ("report",
              VText (app [ Txt "🕐 Current time in "; Txt (title city);
                           Txt ": " ]
                         formatted_time));
             ("timestamp", VText [ Isoformat now ]);
             ("timezone", VStr (timezone city_info));
             ("utc_offset", VText [ Strftime "%z" now ]) ])
      (fun e =>
         ret [ ("status", VStr "error");
               ("error_message",
                VText [ Txt "Error getting time for "; Txt city; Txt ": ";
                        ExnStr e ]) ]).

(* ================================================================= *)
(** ** [get_city_info] *)

Definition get_city_info (city : string) : dict :=
  let city_lower := strip (lower city) in
  match lookup city_lower CITY_DATABASE with
  | None =>
      [ ("status", VStr "error");
        ("error_message",
         VText [ Txt "City information for '"; Txt city;
                 Txt "' not available. Try: ";
                 Txt (available_cities CITY_DATABASE);
                 Txt ". Or I can search the web for it." ]) ]
  | Some city_info =>
      let report :=
        [ Txt "🏙️ "; Txt (name city_info); Txt ", "; Txt (country city_info);
          Txt nl;
          Txt "👥 Population: "; IntComma (population city_info); Txt nl;
          Txt "🗺️ Coordinates: "; Fixed 4 (fst (coordinates city_info));
          Txt ", "; Fixed 4 (snd (coordinates city_info)); Txt nl;
          Txt "💰 Currency: "; Txt (currency city_info); Txt nl;
          Txt "🗣️ Language: "; Txt (language city_info); Txt nl;
          Txt "🕐 Timezone: "; Txt (timezone city_info) ] in
      [ ("status", VStr "success");
        ("report", VText report);
        ("city_data", CityInfo_dict city_info) ]
  end.

(* ================================================================= *)
(** ** [compare_cities] *)

(** [(now1.utcoffset() - now2.utcoffset()).total_seconds() / 3600] *)
Definition offset_hours (now1 now2 : datetime) : R :=
  (IZR (utcoffset now1 - utcoffset now2) / 3600)%R.

Definition compare_cities (rt : Runtime) (city1 city2 comparison_type : string)
  : M dict :=
  if String.eqb comparison_type "weather" then
    let weather1 := get_weather city1 false in
    let weather2 := get_weather city2 false in
    if status_is_error weather1 || status_is_error weather2 then
      if negb (member (strip (lower city1)) WEATHER_DATA)
         || negb (member (strip (lower city2)) WEATHER_DATA)
      then
        ret [ ("status", VStr "error");
              ("error_message",
               VStr "Weather data missing for one or both cities. I can try a web search for current weather if you'd like.") ]
      else
        ret [ ("status", VStr "error");
              ("error_message",
               VStr "Cannot compare - one or both cities have no weather data") ]
    else
      w1 <- lift (getitem WEATHER_DATA (lower city1)) ;;
      w2 <- lift (getitem WEATHER_DATA (lower city2)) ;;
      let temp_diff := (temperature_c w1 - temperature_c w2)%Z in
      let humidity_diff := (humidity w1 - humidity w2)%Z in
      let report :=
        [ Txt "🌍 Weather Comparison: "; Txt (title city1); Txt " vs ";
          Txt (title city2); Txt (nl ++ nl);
          Txt (title city1); Txt ": "; Int (temperature_c w1); Txt "°C, ";
          Txt (condition w1); Txt nl;
          Txt (title city2); Txt ": "; Int (temperature_c w2); Txt "°C, ";
          Txt (condition w2); Txt (nl ++ nl);
          Txt "🌡️ Temperature difference: ";
          Fixed 1 (IZR (Z.abs temp_diff)); Txt "°C ";
          Txt "("; Txt (if (0 <? temp_diff)%Z then "warmer" else "cooler");
          Txt " in ";
          Txt (if (0 <? temp_diff)%Z then title city1 else title city2);
          Txt (")" ++ nl);
          Txt "💧 Humidity difference: "; Int (Z.abs humidity_diff); Txt "% ";
          Txt "("; Txt (if (0 <? humidity_diff)%Z then "higher" else "lower");
          Txt " in ";
          Txt (if (0 <? humidity_diff)%Z then title city1 else title city2);
          Txt ")" ] in
      ret [ ("status", VStr "success"); ("report", VText report) ]
  else if String.eqb comparison_type "time" then
    time1 <- get_current_time rt city1 "standard" ;;
    time2 <- get_current_time rt city2 "standard" ;;
    if status_is_error time1 || status_is_error time2 then
      if negb (member (strip (lower city1)) CITY_DATABASE)
         || negb (member (strip (lower city2)) CITY_DATABASE)
      then
        ret [ ("status", VStr "error");
              ("error_message",
               VStr "Timezone data unavailable for one or both cities in my database. I can search the web for current times.") ]
      else
        ret [ ("status", VStr "error");
              ("error_message",
               VStr "Cannot compare - timezone data unavailable for one or both cities") ]
    else
      info1 <- lift (getitem CITY_DATABASE (lower city1)) ;;
      tz1 <- ZoneInfo rt (timezone info1) ;;
      info2 <- lift (getitem CITY_DATABASE (lower city2)) ;;
      tz2 <- ZoneInfo rt (timezone info2) ;;
      now1 <- now rt tz1 ;;
      now2 <- now rt tz2 ;;
      let diff := offset_hours now1 now2 in
      let report :=
        [ Txt "🕐 Time Comparison: "; Txt (title city1); Txt " vs ";
          Txt (title city2); Txt (nl ++ nl);
          Txt (title city1); Txt ": "; Strftime "%I:%M %p %Z" now1; Txt nl;
          Txt (title city2); Txt ": "; Strftime "%I:%M %p %Z" now2;
          Txt (nl ++ nl);
          Txt "⏰ Time difference: "; Fixed 0 (Rabs diff); Txt " hours ";
          Txt "(";
          Txt (if Rlt_dec 0 diff then title city1 else title city2);
          Txt " is ahead)" ] in
      ret [ ("status", VStr "success"); ("report", VText report) ]
  else
    let info1 := get_city_info city1 in
    let info2 := get_city_info city2 in
    if status_is_error info1 || status_is_error info2 then
      ret [ ("status", VStr "error");
            ("error_message",
             VText [ Txt "City info missing for comparison. I can try searching the web for ";
                     Txt city1; Txt " or "; Txt city2;
                     Txt " if they are not in my database." ]) ]
    else
      ret [ ("status", VStr "error");
            ("error_message",
             VStr "Invalid comparison type or not fully implemented for 'info'. Use 'weather' or 'time', or I can search for general info on both.") ].

(* ================================================================= *)
(** ** [search_cities_in_database] *)

(** The condition of the loop at lines 392-394. *)
Definition city_matches (query_lower : string) (entry : string * CityInfo) : bool :=
  let (city_key, city_info) := entry in
  contains (lower (name city_info)) query_lower
  || contains (lower (country city_info)) query_lower
  || contains city_key query_lower.

(** The dict appended to [matches] for a matching city. *)
Definition match_dict (entry : string * CityInfo) : value :=
  let city_info := snd entry in
  VDict [ ("name", VStr (name city_info));
          ("country", VStr (country city_info));
          ("population", VInt (population city_info)) ].

(** The matching entries, in the order of the table. *)
Definition matching_cities (query : string) : list (string * CityInfo) :=
  filter (city_matches (strip (lower query))) CITY_DATABASE.

Definition match_line (entry : string * CityInfo) : text :=
  let city_info := snd entry in
  [ Txt "• "; Txt (name city_info); Txt ", "; Txt (country city_info);
    Txt " (Pop: "; IntComma (population city_info); Txt (")" ++ nl) ].

Definition search_cities_in_database (query : string) : dict :=
  let matches := matching_cities query in
  match matches with
  | _ :: _ =>
      let report :=
        app [ Txt "🔍 Found "; Int (Z.of_nat (List.length matches));
              Txt " cities in my database matching '"; Txt query;
              Txt ("':" ++ nl ++ nl) ]
            (flat_map match_line matches) in
      [ ("status", VStr "success");
        ("report", VText report);
        ("matches", VList (map match_dict matches));
        ("count", VInt (Z.of_nat (List.length matches))) ]
  | [] =>
      [ ("status", VStr "error");
        ("error_message",
         VText [ Txt "No cities found in my database matching '"; Txt query;
                 Txt "'. I can perform a web search if you'd like." ]) ]
  end.

(* ================================================================= *)
(** ** [get_travel_info] *)

(** [math.radians(x)] *)
Definition radians (x : R) : R := (x * (PI / 180))%R.

(** [math.sqrt(x)]: [ValueError] below zero. *)
Definition math_sqrt (x : R) : outcome R :=
  if Rlt_dec x 0 then Raise (ValueError "math domain error")
  else Return (sqrt x).

(** [math.asin(x)]: [ValueError] outside [-1, 1]. *)
Definition math_asin (x : R) : outcome R :=
  if Rlt_dec x (-1) then Raise (ValueError "math domain error")
  else if Rlt_dec 1 x then Raise (ValueError "math domain error")
  else Return (asin x).

(** Lines 446-448: the value bound to [a]. *)
Definition haversine_a (lat1 lon1 lat2 lon2 : R) : R :=
  let dlat := (lat2 - lat1)%R in
  let dlon := (lon2 - lon1)%R in
  (sin (dlat / 2) ^ 2 + cos lat1 * cos lat2 * sin (dlon / 2) ^ 2)%R.

(** Line 449: [c = 2 * math.asin(math.sqrt(a))]. *)
Definition central_angle (a : R) : outcome R :=
  root <-? math_sqrt a ;;
  angle <-? math_asin root ;;
  Return (2 * angle)%R.

(** Lines 442-450: the value bound to [distance_km]. *)
Definition distance_km (origin_info dest_info : CityInfo) : outcome R :=
  let lat1 := radians (fst (coordinates origin_info)) in
  let lon1 := radians (snd (coordinates origin_info)) in
  let lat2 := radians (fst (coordinates dest_info)) in
  let lon2 := radians (snd (coordinates dest_info)) in
  let a := haversine_a lat1 lon1 lat2 lon2 in
  c <-? central_angle a ;;
  Return (6371 * c)%R.

(** The value bound to [a] at line 448 for two records. *)
Definition haversine_of (origin_info dest_info : CityInfo) : R :=
  haversine_a (radians (fst (coordinates origin_info)))
              (radians (snd (coordinates origin_info)))
              (radians (fst (coordinates dest_info)))
              (radians (snd (coordinates dest_info))).

(** Line 462: the figure shown in miles, [distance_km*0.621371]. *)
Definition distance_miles (distance_km : R) : R := (distance_km * 0.621371)%R.

(** Line 462 of the report: the distance in both units. *)
Definition distance_line (distance_km : R) : text :=
  [ Txt "📏 Distance: ~"; Fixed 0 distance_km; Txt " km (";
    Fixed 0 (distance_miles distance_km); Txt (" miles)" ++ nl) ].

(** Lines 453-458: the value bound to [time_diff]. *)
Definition time_difference (rt : Runtime) (origin_info dest_info : CityInfo) : M R :=
  origin_tz <- ZoneInfo rt (timezone origin_info) ;;
  dest_tz <- ZoneInfo rt (timezone dest_info) ;;
  now_origin <- now rt origin_tz ;;
  now_dest <- now rt dest_tz ;;
  ret (offset_hours now_dest now_origin).

(** Line 464: ['ahead' if time_diff > 0 else 'behind']. *)
Definition ahead_or_behind (time_diff : R) : string :=
  if Rlt_dec 0 time_diff then "ahead" else "behind".

(** [round(x)] for a float: the nearest integer, a tie going to the even
    one. *)
Definition round (x : R) : Z :=
  let below := Int_part x in
  if Rlt_dec (frac_part x) (1 / 2) then below
  else if Rlt_dec (1 / 2) (frac_part x) then (below + 1)%Z
  else if Z.even below then below else (below + 1)%Z.

(** The names bound to a [str] at module level (lines 539-541). No other
    name of the module, and no builtin, is called [dest]. *)
Definition module_strs : list (string * string) :=
  [ ("APP_NAME", "comprehensive_city_app"); ("USER_ID", "user123");
    ("SESSION_ID", "session1") ].

(** Evaluating a name inside the function: the locals first, then the
    module; [NameError] when it is bound in neither. *)
Definition load_name (locals : list (string * string)) (id : string) : outcome string :=
  match lookup id locals with
  | Some v => Return v
  | None =>
      match lookup id module_strs with
      | Some v => Return v
      | None => Raise (NameError id)
      end
  end.

(** Lines 460-467: the f-string bound to [report]; its replacement fields
    are evaluated from left to right. *)
Definition travel_report (locals : list (string * string))
    (origin_info dest_info : CityInfo) (distance_km time_diff : R) : outcome text :=
  origin <-? load_name locals "origin" ;;
  dest <-? load_name locals "dest" ;;
  dest' <-? load_name locals "dest" ;;
  Return
    (app [ Txt "✈️ Travel Info: "; Txt (title origin); Txt " → ";
           Txt (title dest); Txt (nl ++ nl) ]
    (app (distance_line distance_km)
         [ Txt "🕐 Time difference: "; Fixed 0 (Rabs time_diff); Txt " hours ";
           Txt "("; Txt (ahead_or_behind time_diff); Txt " in ";
           Txt (title dest'); Txt (")" ++ nl);
           Txt "💱 Currency: "; Txt (currency origin_info); Txt " → ";
           Txt (currency dest_info); Txt nl;
           Txt "🗣️ Language: "; Txt (language origin_info); Txt " → ";
           Txt (language dest_info) ])).

Definition get_travel_info (rt : Runtime) (origin destination : string) : M dict :=
  let origin_lower := strip (lower origin) in
  let dest_lower := strip (lower destination) in
  if negb (member origin_lower CITY_DATABASE)
     || negb (member dest_lower CITY_DATABASE)
  then
    ret [ ("status", VStr "error");
          ("error_message",
           VStr "Travel info requires both cities to be in our database. I can try a web search for information about these cities.") ]
  else
    origin_info <- lift (getitem CITY_DATABASE origin_lower) ;;
    dest_info <- lift (getitem CITY_DATABASE dest_lower) ;;
    distance_km <- lift (distance_km origin_info dest_info) ;;
    time_diff <- time_difference rt origin_info dest_info ;;
    let locals :=
      [ ("origin", origin); ("destination", destination);
        ("origin_lower", origin_lower); ("dest_lower", dest_lower) ] in
    report <- lift (travel_report locals origin_info dest_info
                                  distance_km time_diff) ;;
    ret [ ("status", VStr "success");
          ("report", VText report);
          ("distance_km", VInt (round distance_km));
          ("time_difference_hours", VFloat time_diff) ].

(* ================================================================= *)
(** ** The distance as the specification words it *)

(** The specification's formula, in its own words: degrees to radians, the
    radian differences, [h], the central angle [c = 2 asin (sqrt h)], and
    [6371 c]. *)
Definition spec_haversine_km (lat1_deg lon1_deg lat2_deg lon2_deg : R) : R :=
  let lat1 := (lat1_deg * PI / 180)%R in
  let lon1 := (lon1_deg * PI / 180)%R in
  let lat2 := (lat2_deg * PI / 180)%R in
  let lon2 := (lon2_deg * PI / 180)%R in
  let dlat := (lat2 - lat1)%R in
  let dlon := (lon2 - lon1)%R in
  let h := (Rsqr (sin (dlat / 2)) + cos lat1 * cos lat2 * Rsqr (sin (dlon / 2)))%R in
  let c := (2 * asin (sqrt h))%R in
  (6371 * c)%R.

(** Records of the table, by name. *)
Definition london : CityInfo :=
  mkCityInfo "London" "United Kingdom" "Europe/London"
             9648110 (51.5074, -0.1278)%R "GBP" "English".

Definition paris : CityInfo :=
  mkCityInfo "Paris" "France" "Europe/Paris"
             2165423 (48.8566, 2.3522)%R "EUR" "French".

Definition tokyo : CityInfo :=
  mkCityInfo "Tokyo" "Japan" "Asia/Tokyo"
             13960000 (35.6762, 139.6503)%R "JPY" "Japanese".

(** The format names [get_current_time] documents. *)
Definition recognized_formats : list string :=
  [ "standard"; "business"; "iso"; "relative" ].

(** A time zone database at a winter instant: London on UTC, Paris one
    hour ahead, Tokyo nine hours ahead, no other zone known. *)
Definition winter_tzdata (key : string) : option (Z -> Z) :=
  if String.eqb key "Europe/London" then Some (fun _ => 0%Z)
  else if String.eqb key "Europe/Paris" then Some (fun _ => 3600%Z)
  else if String.eqb key "Asia/Tokyo" then Some (fun _ => 32400%Z)
  else None.

Definition winter : Runtime := mkRuntime winter_tzdata (fun n => Z.of_nat n).

(** A runtime whose time zone database knows no zone at all. *)
Definition no_tzdata : Runtime := mkRuntime (fun _ => None) (fun n => Z.of_nat n).



(* ================================================================= *)
(** ** The range the string operations are written for *)

(** Every character of [s] has a code below 128. On such strings [lower],
    [strip], [title] and [contains] are Python's [str.lower], [str.strip],
    [str.title] and [in]; on others Python also lower-cases letters and
    strips blanks that are outside the ASCII range, which [lower] and
    [strip] leave alone. *)
Fixpoint is_ascii (s : string) : bool :=
  match s with
  | EmptyString => true
  | String c r => (code c <? 128)%nat && is_ascii r
  end.

(** A record whose coordinates are in the documented ranges (degrees). *)
Definition valid_coordinates (c : CityInfo) : Prop :=
  (-90 <= fst (coordinates c) <= 90)%R /\
  (-180 <= snd (coordinates c) <= 180)%R.

(* ================================================================= *)
(** ** [get_weather_forecast] *)

(** What the forecast reads of the calendar: the local date of an instant
    (as a day number) and [date.strftime]. Both belong to the standard
    library and the machine's local zone, and are taken as given. *)
Record Calendar := mkCalendar {
  local_date : Z -> Z;
  date_strftime : string -> Z -> string
}.

(** [datetime.date.today()]: a reading of the clock, as a local date. *)
Definition date_today (rt : Runtime) (cal : Calendar) : M Z :=
  fun n => (Return (local_date cal (clock rt n)), S n).

(** [int(x)] for a float: the integer part, towards zero. *)
Definition int (x : R) : Z :=
  if Rle_dec 0 x then Int_part x else (- Int_part (- x))%Z.

(** Line 360. *)
Definition forecast_conditions : list string :=
  [ "sunny"; "partly cloudy"; "cloudy"; "rainy"; "thunderstorms" ].

(** Line 366: [(-2 + i) if i < 3 else (1 - i)]. *)
Definition temp_variation (i : Z) : Z :=
  if (i <? 3)%Z then (-2 + i)%Z else (1 - i)%Z.

(** Line 367. *)
Definition forecast_temp_c (base_weather : Weather) (i : Z) : Z :=
  (temperature_c base_weather + temp_variation i)%Z.

(** Line 368: [int(temp_c * 9/5 + 32)]; the division is the float one. *)
Definition forecast_temp_f (temp_c : Z) : Z :=
  int (IZR (temp_c * 9) / 5 + 32)%R.

(** Line 369: [forecast_conditions[i % len(forecast_conditions)]]; the
    index is below the length, so the default is never taken. *)
Definition forecast_condition (i : nat) : string :=
  nth (i mod List.length forecast_conditions) forecast_conditions "".

(** Lines 365-371, after [today] is read: the line added for one [i]. *)
Definition forecast_entry (cal : Calendar) (base_weather : Weather)
    (today : Z) (i : nat) : text :=
  let date := (today + (Z.of_nat i + 1))%Z in
  let temp_c := forecast_temp_c base_weather (Z.of_nat i) in
  let temp_f := forecast_temp_f temp_c in
  let condition := forecast_condition i in
  [ Txt "📆 "; Txt (date_strftime cal "%A, %B %d" date); Txt ": ";
    Txt (title condition); Txt ", "; Int temp_c; Txt "°C (";
    Int temp_f; Txt ("°F)" ++ nl) ].

(** Lines 365-371: the body of the loop for one [i]. *)
Definition forecast_line (rt : Runtime) (cal : Calendar)
    (base_weather : Weather) (i : nat) : M text :=
  today <- date_today rt cal ;;
  ret (forecast_entry cal base_weather today i).

(** Lines 364-371: the loop over the values [indices] of [range(days)], adding
    to [report]. *)
Fixpoint forecast_loop (rt : Runtime) (cal : Calendar) (base_weather : Weather)
    (indices : list nat) (report : text) : M text :=
  match indices with
  | [] => ret report
  | i :: rest =>
      line <- forecast_line rt cal base_weather i ;;
      forecast_loop rt cal base_weather rest (app report line)
  end.

(** Line 362: the first line of the report. *)
Definition forecast_header (city : string) (days : Z) : text :=
  [ Txt "📅 "; Int days; Txt "-Day Weather Forecast for ";
    Txt (title city); Txt (":" ++ nl ++ nl) ].

Definition get_weather_forecast (rt : Runtime) (cal : Calendar)
    (city : string) (days : Z) : M dict :=
  let city_lower := strip (lower city) in
  if negb (member city_lower WEATHER_DATA) then
    ret [ ("status", VStr "error");
          ("error_message",
           VText [ Txt "Weather forecast data for '"; Txt city;
                   Txt "' not available in my database. I can try to search the web for it." ]) ]
  else if (days <? 1)%Z || (7 <? days)%Z then
    ret [ ("status", VStr "error");
          ("error_message", VStr "Forecast days must be between 1 and 7") ]
  else
    base_weather <- lift (getitem WEATHER_DATA city_lower) ;;
    let report := forecast_header city days in
    report <- forecast_loop rt cal base_weather (seq 0 (Z.to_nat days)) report ;;
    ret [ ("status", VStr "success");
          ("report", VText report);
          ("forecast_days", VInt days) ].

(** The name is, once lower-cased and trimmed, a key of [CITY_DATABASE]
    whose zone the runtime resolves. *)
Definition zone_resolves (rt : Runtime) (city : string) : bool :=
  match lookup (strip (lower city)) CITY_DATABASE with
  | Some city_info =>
      match tzdata rt (timezone city_info) with
      | Some _ => true
      | None => false
      end
  | None => false
  end.

(* ================================================================= *)
(** ** [call_agent] *)

(** An event the runner yields, as far as [call_agent] looks at it:
    [event.is_final_response()], and the value of
    [event.content.parts[0].text] ([None] when evaluating it raises). *)
Record Event := mkEvent {
  is_final_response : bool;
  first_part_text : option string
}.

(** How a call of [call_agent] ends. *)
Inductive agent_result :=
| Responded (final_response : string)   (* [return final_response] *)
| NoResponse                            (* the loop ends: [None] *)
| TextRaised.                           (* line 567 raised *)

(** Lines 565-569: the loop over the events; the second component is what
    [print] has written. *)
Fixpoint call_agent (events : list Event) : agent_result * list string :=
  match events with
  | [] => (NoResponse, [])
  | event :: rest =>
      if is_final_response event then
        match first_part_text event with
        | Some final_response =>
            (Responded final_response, [ "Agent Response: " ++ final_response ])
        | None => (TextRaised, [])
        end
      else call_agent rest
  end.

(* ================================================================= *)
(** ** Records and runtimes used as examples *)

Definition north_pole : CityInfo :=
  mkCityInfo "North Pole" "Arctic" "UTC" 0 (90, 0)%R "" "".

Definition south_pole : CityInfo :=
  mkCityInfo "South Pole" "Antarctica" "UTC" 0 (-90, 180)%R "" "".

(** Two records on the date line, the longitude written from either
    side. *)
Definition date_line_west : CityInfo :=
  mkCityInfo "Date line" "" "UTC" 0 (10, -180)%R "" "".

Definition date_line_east : CityInfo :=
  mkCityInfo "Date line" "" "UTC" 0 (10, 180)%R "" "".

(** A point on London's meridian, two degrees to the south. *)
Definition south_of_london : CityInfo :=
  mkCityInfo "South of London" "United Kingdom" "Europe/London"
             0 (49.5074, -0.1278)%R "GBP" "English".

(** A calendar that counts days of 86400 seconds and writes a date as
    nothing but its format. *)
Definition plain_calendar : Calendar :=
  mkCalendar (fun t => (t / 86400)%Z) (fun format _ => format).
(* ================================================================= *)
(** * Properties *)

Section Haversine.

Local Open Scope R_scope.

Lemma sin_half_sqr (x : R) : sin (x / 2) ^ 2 = (1 - cos x) / 2.
Proof.
  replace (cos x) with (cos (2 * (x / 2))) by (f_equal; field).
  rewrite cos_2a_sin. simpl. field.
Qed.

Lemma sin_half_sqr_range (x : R) : 0 <= sin (x / 2) ^ 2 <= 1.
Proof.
  rewrite sin_half_sqr. pose proof (COS_bound x). lra.
Qed.

(** In exact arithmetic the value of line 448 is within [0, 1] for all
    arguments: it lies between [(1 - cos dlat) / 2], its value when the
    longitudes agree, and [(1 + cos (lat1 + lat2)) / 2], its value when
    they differ by a half turn. *)
Lemma haversine_a_range (lat1 lon1 lat2 lon2 : R) :
  0 <= haversine_a lat1 lon1 lat2 lon2 <= 1.
Proof.
  unfold haversine_a. cbv zeta.
  pose proof (sin_half_sqr_range (lon2 - lon1)) as Hs.
  set (s := sin ((lon2 - lon1) / 2) ^ 2) in *.
  rewrite sin_half_sqr, cos_minus.
  pose proof (COS_bound (lat2 - lat1)) as Hd. rewrite cos_minus in Hd.
  pose proof (COS_bound (lat2 + lat1)) as Hp. rewrite cos_plus in Hp.
  set (cc := cos lat1 * cos lat2).
  set (ss := sin lat1 * sin lat2).
  replace (cos lat2 * cos lat1) with cc in * by (unfold cc; ring).
  replace (sin lat2 * sin lat1) with ss in * by (unfold ss; ring).
  replace ((1 - (cc + ss)) / 2 + cc * s)
    with ((1 - s) * ((1 - (cc + ss)) / 2) + s * ((1 + (cc - ss)) / 2))
    by field.
  split.
  - apply Rplus_le_le_0_compat; apply Rmult_le_pos; lra.
  - assert ((1 - s) * ((1 - (cc + ss)) / 2) <= (1 - s) * 1)
      by (apply Rmult_le_compat_l; lra).
    assert (s * ((1 + (cc - ss)) / 2) <= s * 1)
      by (apply Rmult_le_compat_l; lra).
    lra.
Qed.

Lemma haversine_a_sym (lat1 lon1 lat2 lon2 : R) :
  haversine_a lat1 lon1 lat2 lon2 = haversine_a lat2 lon2 lat1 lon1.
Proof.
  unfold haversine_a. cbv zeta.
  rewrite !sin_half_sqr.
  replace (lat1 - lat2) with (- (lat2 - lat1)) by ring.
  replace (lon1 - lon2) with (- (lon2 - lon1)) by ring.
  rewrite !cos_neg. ring.
Qed.

Lemma math_sqrt_defined (x : R) : 0 <= x -> math_sqrt x = Return (sqrt x).
Proof.
  intros Hx. unfold math_sqrt. destruct (Rlt_dec x 0); [lra | reflexivity].
Qed.

Lemma math_asin_defined (x : R) : -1 <= x <= 1 -> math_asin x = Return (asin x).
Proof.
  intros Hx. unfold math_asin.
  destruct (Rlt_dec x (-1)); [lra |].
  destruct (Rlt_dec 1 x); [lra | reflexivity].
Qed.

Lemma sqrt_unit_range (x : R) : 0 <= x <= 1 -> 0 <= sqrt x <= 1.
Proof.
  intros [H0 H1]. split; [apply sqrt_pos |].
  rewrite <- sqrt_1. apply sqrt_le_1_alt. exact H1.
Qed.

Lemma central_angle_defined (a : R) :
  0 <= a <= 1 -> central_angle a = Return (2 * asin (sqrt a)).
Proof.
  intros Ha. unfold central_angle.
  rewrite math_sqrt_defined by lra. simpl.
  rewrite math_asin_defined by (pose proof (sqrt_unit_range a Ha); lra).
  reflexivity.
Qed.

Lemma haversine_of_range (a b : CityInfo) : 0 <= haversine_of a b <= 1.
Proof. unfold haversine_of. apply haversine_a_range. Qed.

(** The value [distance_km] returns. *)
Lemma distance_km_defined (a b : CityInfo) :
  distance_km a b = Return (6371 * (2 * asin (sqrt (haversine_of a b)))).
Proof.
  unfold distance_km. cbv zeta.
  fold (haversine_of a b).
  rewrite central_angle_defined by apply haversine_of_range. reflexivity.
Qed.

Lemma asin_nonneg (x : R) : 0 <= x <= 1 -> 0 <= asin x.
Proof.
  intros [H0 H1].
  destruct (Rle_lt_or_eq_dec 0 x H0) as [Hpos | Heq].
  - destruct (Rle_lt_or_eq_dec x 1 H1) as [Hlt | Hone].
    + rewrite asin_atan by lra.
      left. rewrite <- atan_0. apply atan_increasing.
      apply Rdiv_lt_0_compat; [exact Hpos |].
      apply sqrt_lt_R0. unfold Rsqr. nra.
    + subst x. rewrite asin_1. pose proof PI_RGT_0. lra.
  - subst x. rewrite asin_0. lra.
Qed.

End Haversine.

(* ================================================================= *)
(** ** The great-circle distance *)

Section Distance.

Local Open Scope R_scope.

Lemma distance_km_sym (a b : CityInfo) : distance_km a b = distance_km b a.
Proof.
  unfold distance_km. cbv zeta. rewrite haversine_a_sym. reflexivity.
Qed.

(** C5: the distance is symmetric. For every pair of records the distance
    computation returns a number of kilometres in each direction, and the
    two are equal (exactly, hence within the relative tolerance 1e-6). *)
Theorem C5_distance_symmetric (a b : CityInfo) :
  exists d_ab d_ba : R,
    distance_km a b = Return d_ab /\ distance_km b a = Return d_ba /\
    d_ab = d_ba /\ Rabs (d_ab - d_ba) <= 1e-6 * Rabs d_ab.
Proof.
  exists (6371 * (2 * asin (sqrt (haversine_of a b)))).
  exists (6371 * (2 * asin (sqrt (haversine_of a b)))).
  split; [apply distance_km_defined |].
  split; [rewrite distance_km_sym; apply distance_km_defined |].
  split; [reflexivity |].
  replace (_ - _) with 0 by ring. rewrite Rabs_R0.
  apply Rmult_le_pos; [lra | apply Rabs_pos].
Qed.

(** X2: the distance from a record to itself is zero, whatever its
    coordinates: [h] is then exactly zero. *)
Theorem distance_km_identity (a : CityInfo) : distance_km a a = Return 0.
Proof.
  rewrite distance_km_defined.
  assert (E : haversine_of a a = 0).
  { unfold haversine_of, haversine_a. cbv zeta.
    replace (radians (fst (coordinates a)) - radians (fst (coordinates a)))
      with 0 by ring.
    replace (radians (snd (coordinates a)) - radians (snd (coordinates a)))
      with 0 by ring.
    replace (0 / 2) with 0 by field. rewrite sin_0. simpl. ring. }
  rewrite E, sqrt_0, asin_0. f_equal. ring.
Qed.

Lemma distance_km_nonneg (a b : CityInfo) :
  0 <= 6371 * (2 * asin (sqrt (haversine_of a b))).
Proof.
  pose proof (sqrt_unit_range _ (haversine_of_range a b)) as Hs.
  pose proof (asin_nonneg _ Hs). lra.
Qed.

End Distance.

(* ================================================================= *)
(** ** The string operations *)

Section Strings.

Example title_new_york : title "new york" = "New York".
Proof. reflexivity. Qed.

Example title_mixed : title " lONDON town-hall 2x" = " London Town-Hall 2X".
Proof. reflexivity. Qed.

Example strip_lower_new_york :
  strip (lower ("  New York " ++ nl ++ " ")) = "new york".
Proof. reflexivity. Qed.

Example strip_keeps_inner_space : strip " a  b " = "a  b".
Proof. reflexivity. Qed.

Example contains_substring :
  contains "united kingdom" "king" = true /\
  contains "united kingdom" "" = true /\
  contains "japan" "japanese" = false.
Proof. repeat split; reflexivity. Qed.

Example available_cities_weather :
  available_cities WEATHER_DATA = "New York, London, Tokyo, Lagos, Paris".
Proof. reflexivity. Qed.

Lemma is_space_lower_char (c : ascii) : is_space (lower_char c) = is_space c.
Proof. destruct c as [[] [] [] [] [] [] [] []]; reflexivity. Qed.

Lemma lower_char_idem (c : ascii) : lower_char (lower_char c) = lower_char c.
Proof. destruct c as [[] [] [] [] [] [] [] []]; reflexivity. Qed.

Lemma lower_idem (s : string) : lower (lower s) = lower s.
Proof.
  induction s as [| c s IH]; simpl; [reflexivity |].
  rewrite lower_char_idem, IH. reflexivity.
Qed.

Lemma lower_lstrip (s : string) : lower (lstrip s) = lstrip (lower s).
Proof.
  induction s as [| c s IH]; simpl; [reflexivity |].
  rewrite is_space_lower_char. destruct (is_space c); [exact IH | reflexivity].
Qed.

Lemma lower_rstrip (s : string) : lower (rstrip s) = rstrip (lower s).
Proof.
  induction s as [| c s IH]; simpl; [reflexivity |].
  rewrite <- IH, is_space_lower_char.
  destruct (rstrip s) as [| c' r]; simpl; [| reflexivity].
  destruct (is_space c); reflexivity.
Qed.

(** Lower-casing and trimming commute. *)
Lemma lower_strip (s : string) : lower (strip s) = strip (lower s).
Proof. unfold strip. rewrite lower_rstrip, lower_lstrip. reflexivity. Qed.

Lemma lstrip_first_not_space (s : string) : first_not_space (lstrip s).
Proof.
  induction s as [| c s IH]; simpl; [exact I |].
  destruct (is_space c) eqn:E; [exact IH | exact E].
Qed.

Lemma lstrip_fixed (s : string) : first_not_space s -> lstrip s = s.
Proof.
  destruct s as [| c s]; simpl; [reflexivity |]. intros ->. reflexivity.
Qed.

Lemma rstrip_first_not_space (s : string) :
  first_not_space s -> first_not_space (rstrip s).
Proof.
  destruct s as [| c s]; simpl; [exact (fun H => H) |].
  intros E. rewrite E. destruct (rstrip s); exact E.
Qed.

Lemma rstrip_idem (s : string) : rstrip (rstrip s) = rstrip s.
Proof.
  induction s as [| c s IH]; simpl; [reflexivity |].
  destruct (rstrip s) as [| c' r] eqn:E.
  - destruct (is_space c) eqn:Ec; simpl; [reflexivity |].
    rewrite Ec. reflexivity.
  - simpl. simpl in IH. destruct (rstrip r) as [| c'' r'] eqn:Er.
    + destruct (is_space c') eqn:Ec'; [discriminate IH |].
      injection IH as <-. reflexivity.
    + rewrite IH. reflexivity.
Qed.

Lemma strip_idem (s : string) : strip (strip s) = strip s.
Proof.
  unfold strip.
  rewrite (lstrip_fixed (rstrip (lstrip s)))
    by (apply rstrip_first_not_space, lstrip_first_not_space).
  apply rstrip_idem.
Qed.

(** The normal form of a name is its own normal form. *)
Lemma normal_form_idem (s : string) :
  strip (lower (strip (lower s))) = strip (lower s).
Proof. rewrite lower_strip, lower_idem. apply strip_idem. Qed.

End Strings.

(* ================================================================= *)
(** ** Lookup by name: [get_city_info] *)

Section Lookup.

Lemma member_lookup {A : Type} (key : string) (table : list (string * A)) :
  member key table = true <-> exists v, lookup key table = Some v.
Proof.
  unfold member. destruct (lookup key table) as [v |].
  - split; [intros _; exists v; reflexivity | reflexivity].
  - split; [discriminate | intros [v E]; discriminate].
Qed.

Lemma member_false_lookup {A : Type} (key : string) (table : list (string * A)) :
  member key table = false <-> lookup key table = None.
Proof.
  unfold member. destruct (lookup key table); split; congruence.
Qed.

(** The result depends on the name through its normal form only, when the
    normal form is a key of the table. *)
Lemma get_city_info_normal_form (city1 city2 : string) :
  strip (lower city1) = strip (lower city2) ->
  member (strip (lower city1)) CITY_DATABASE = true ->
  get_city_info city1 = get_city_info city2.
Proof.
  intros E Hm. unfold get_city_info. cbv zeta. rewrite <- E.
  apply member_lookup in Hm. destruct Hm as [info Hinfo].
  rewrite Hinfo. reflexivity.
Qed.

(** C8: the name is lower-cased and trimmed before it is compared with the
    keys, so the three spellings of London give the same result, which
    carries London's record; every name gives a result whose status is
    "success" or "error" (no exception is involved), and a name whose
    normal form is no key gives the "error" one. The last two parts are
    stated for names of ASCII characters, for which [lower] and [strip]
    are Python's. *)
Theorem C8_lookup_is_normalised :
  (forall city1 city2 : string,
      strip (lower city1) = strip (lower city2) ->
      member (strip (lower city1)) CITY_DATABASE = true ->
      get_city_info city1 = get_city_info city2) /\
  (forall city : string,
      member (strip (lower city)) CITY_DATABASE = true ->
      get_city_info city = get_city_info (strip (lower city))) /\
  get_city_info " London " = get_city_info "london" /\
  get_city_info "LONDON" = get_city_info "london" /\
  status (get_city_info "london") = Some (VStr "success") /\
  lookup "city_data" (get_city_info "london") = Some (CityInfo_dict london) /\
  Forall (fun key => strip (lower key) = key) (keys CITY_DATABASE) /\
  NoDup (keys CITY_DATABASE) /\
  (forall city : string,
      status (get_city_info city) = Some (VStr "success") \/
      status (get_city_info city) = Some (VStr "error")) /\
  (forall (city : string) (detailed : bool),
      is_ascii city = true ->
      member (strip (lower city)) WEATHER_DATA = false ->
      status (get_weather city detailed) = Some (VStr "error")) /\
  (forall city : string,
      is_ascii city = true ->
      member (strip (lower city)) CITY_DATABASE = false ->
      get_city_info city =
      [ ("status", VStr "error");
        ("error_message",
         VText [ Txt "City information for '"; Txt city;
                 Txt "' not available. Try: ";
                 Txt "New York, London, Tokyo, Lagos, Paris, Dubai, Sydney, Mumbai";
                 Txt ". Or I can search the web for it." ]) ]).
Proof.
  split; [exact get_city_info_normal_form |].
  split.
  { intros city Hm. apply get_city_info_normal_form; [| exact Hm].
    symmetry. apply normal_form_idem. }
  split; [reflexivity |].
  split; [reflexivity |].
  split; [reflexivity |].
  split; [reflexivity |].
  split; [repeat constructor |].
  split.
  { repeat (constructor; [simpl; intuition discriminate |]). constructor. }
  split.
  { intros city. unfold get_city_info. cbv zeta.
    destruct (lookup (strip (lower city)) CITY_DATABASE);
      [left | right]; reflexivity. }
  split.
  { intros city detailed _ Hm. apply member_false_lookup in Hm.
    unfold get_weather. cbv zeta. rewrite Hm. reflexivity. }
  intros city _ Hm. apply member_false_lookup in Hm.
  unfold get_city_info. cbv zeta. rewrite Hm. reflexivity.
Qed.

Lemma C8_lookup_is_normalised_witness :
  get_city_info " London " = get_city_info "LONDON" /\
  get_city_info "Atlantis" =
    [ ("status", VStr "error");
      ("error_message",
       VText [ Txt "City information for '"; Txt "Atlantis";
               Txt "' not available. Try: ";
               Txt "New York, London, Tokyo, Lagos, Paris, Dubai, Sydney, Mumbai";
               Txt ". Or I can search the web for it." ]) ].
Proof.
  split.
  - apply (proj1 C8_lookup_is_normalised " London " "LONDON"); reflexivity.
  - apply (proj2 (proj2 (proj2 (proj2 (proj2 (proj2 (proj2 (proj2 (proj2
             (proj2 C8_lookup_is_normalised))))))))) "Atlantis");
      reflexivity.
Defined.

End Lookup.

(* ================================================================= *)
(** ** Search: [search_cities_in_database] *)

Section Search.

Lemma filter_nil_iff {A : Type} (f : A -> bool) (l : list A) :
  filter f l = [] <-> forall x, In x l -> f x = false.
Proof.
  induction l as [| y l IH]; simpl.
  - split; [intros _ x [] | reflexivity].
  - destruct (f y) eqn:Fy.
    + split; [discriminate |].
      intros H. specialize (H y (or_introl eq_refl)). congruence.
    + rewrite IH. split.
      * intros H x [<- | Hx]; [exact Fy | exact (H x Hx)].
      * intros H x Hx. apply H. right. exact Hx.
Qed.

(** C2, as stated, fails: for a query that matches no record the search
    returns a dict whose status is "error", with a message and without any
    list of matches; an empty list is never returned as a success. *)
Lemma C2_no_match_is_an_error :
  matching_cities "zzzznotacity" = [] /\
  search_cities_in_database "zzzznotacity" =
    [ ("status", VStr "error");
      ("error_message",
       VText [ Txt "No cities found in my database matching '";
               Txt "zzzznotacity";
               Txt "'. I can perform a web search if you'd like." ]) ] /\
  status (search_cities_in_database "zzzznotacity") <> Some (VStr "success") /\
  lookup "matches" (search_cities_in_database "zzzznotacity") = None.
Proof.
  repeat split; try reflexivity. discriminate.
Qed.

(** C2, amended: for every query of ASCII characters that no record
    matches (the trimmed, lower-cased query is a substring of no key, no
    lower-cased name and no lower-cased country), the search returns,
    without raising, the result whose status is "error" and whose message
    quotes the query. *)
Theorem C2_no_match_returns_error_result (query : string) :
  is_ascii query = true ->
  (forall key city_info,
      In (key, city_info) CITY_DATABASE ->
      contains key (strip (lower query)) = false /\
      contains (lower (name city_info)) (strip (lower query)) = false /\
      contains (lower (country city_info)) (strip (lower query)) = false) ->
  search_cities_in_database query =
    [ ("status", VStr "error");
      ("error_message",
       VText [ Txt "No cities found in my database matching '"; Txt query;
               Txt "'. I can perform a web search if you'd like." ]) ].
Proof.
  intros _ H.
  assert (E : matching_cities query = []).
  { unfold matching_cities. apply filter_nil_iff.
    intros [key city_info] Hin. destruct (H key city_info Hin) as (K & N & C).
    unfold city_matches. rewrite K, N, C. reflexivity. }
  unfold search_cities_in_database. cbv zeta. rewrite E. reflexivity.
Qed.

Lemma C2_no_match_returns_error_result_witness :
  search_cities_in_database "zzzznotacity" =
    [ ("status", VStr "error");
      ("error_message",
       VText [ Txt "No cities found in my database matching '";
               Txt "zzzznotacity";
               Txt "'. I can perform a web search if you'd like." ]) ].
Proof.
  apply (C2_no_match_returns_error_result "zzzznotacity"); [reflexivity |].
  intros key city_info Hin. simpl in Hin.
  repeat (destruct Hin as [Hin | Hin];
          [injection Hin as <- <-; repeat split; reflexivity |]).
  destruct Hin.
Defined.

End Search.

(* ================================================================= *)
(** ** Comparison of the weather: [compare_cities] *)

Section Compare.

Lemma status_is_error_get_weather (city : string) (detailed : bool) :
  status_is_error (get_weather city detailed)
  = negb (member (strip (lower city)) WEATHER_DATA).
Proof.
  unfold get_weather, member. cbv zeta.
  destruct (lookup (strip (lower city)) WEATHER_DATA); reflexivity.
Qed.

(** When both names pass the check of line 259 and the first one, only
    lower-cased, is no key of the table, line 270 raises [KeyError]. *)
Lemma compare_weather_key_error (rt : Runtime) (city1 city2 : string) (n : nat) :
  member (strip (lower city1)) WEATHER_DATA = true ->
  member (strip (lower city2)) WEATHER_DATA = true ->
  member (lower city1) WEATHER_DATA = false ->
  compare_cities rt city1 city2 "weather" n = (Raise (KeyError (lower city1)), n).
Proof.
  intros H1 H2 H3. unfold compare_cities.
  replace (String.eqb "weather" "weather") with true by reflexivity.
  cbv zeta. rewrite !status_is_error_get_weather, H1, H2. simpl.
  apply member_false_lookup in H3.
  unfold bind, lift, getitem. rewrite H3. reflexivity.
Qed.

(** C9: the check of line 259 goes through [get_weather], which lower-cases
    and trims the name, while lines 270-271 index the table with the name
    lower-cased only. For the name " london " (and "paris") the check
    passes, the index of line 270 raises [KeyError], and the call returns
    no dict. *)
Theorem C9_untrimmed_index_raises :
  exists city1 city2 : string,
    status_is_error (get_weather city1 false) = false /\
    status_is_error (get_weather city2 false) = false /\
    member (strip (lower city1)) WEATHER_DATA = true /\
    member (lower city1) WEATHER_DATA = false /\
    forall rt : Runtime,
      run (compare_cities rt city1 city2 "weather") = Raise (KeyError " london ") /\
      forall result : dict,
        run (compare_cities rt city1 city2 "weather") <> Return result.
Proof.
  exists " london ", "paris".
  do 4 (split; [reflexivity |]).
  intros rt.
  assert (E : run (compare_cities rt " london " "paris" "weather")
              = Raise (KeyError " london ")).
  { unfold run. rewrite compare_weather_key_error by reflexivity. reflexivity. }
  split; [exact E |].
  intros result. rewrite E. discriminate.
Qed.

End Compare.

(* ================================================================= *)
(** ** The current time: [get_current_time] *)

Section CurrentTime.

Lemma keys_formats (d : datetime) : keys (formats d) = recognized_formats.
Proof. reflexivity. Qed.

Lemma get_unrecognized (format_type : string) (d : datetime) (default : text) :
  ~ In format_type recognized_formats ->
  get (formats d) format_type default = default.
Proof.
  intros H. unfold get, formats, lookup.
  destruct (String.eqb_spec format_type "standard") as [-> | _];
    [exfalso; apply H; simpl; tauto |].
  destruct (String.eqb_spec format_type "business") as [-> | _];
    [exfalso; apply H; simpl; tauto |].
  destruct (String.eqb_spec format_type "iso") as [-> | _];
    [exfalso; apply H; simpl; tauto |].
  destruct (String.eqb_spec format_type "relative") as [-> | _];
    [exfalso; apply H; simpl; tauto |].
  reflexivity.
Qed.

(** The result for a city of the table whose zone the runtime knows. *)
Lemma get_current_time_success (rt : Runtime) (city format_type : string)
    (city_info : CityInfo) (offset : Z -> Z) (n : nat) :
  lookup (strip (lower city)) CITY_DATABASE = Some city_info ->
  tzdata rt (timezone city_info) = Some offset ->
  get_current_time rt city format_type n =
  (let now := mkDatetime (clock rt n) (timezone city_info) (offset (clock rt n)) in
   (Return
      [ ("status", VStr "success");
        ("report",
         VText (app [ Txt "🕐 Current time in "; Txt (title city); Txt ": " ]
                    (get (formats now) format_type
                         [ Strftime "%A, %B %d, %Y at %I:%M:%S %p %Z" now ])));
        ("timestamp", VText [ Isoformat now ]);
        ("timezone", VStr (timezone city_info));
        ("utc_offset", VText [ Strftime "%z" now ]) ],
    S n)).
Proof.
  intros Hc Hz. unfold get_current_time, member. cbv zeta. rewrite Hc.
  unfold try_except, bind, lift, getitem, ZoneInfo, now, ret.
  rewrite Hc, Hz. reflexivity.
Qed.

(** The result for a city of the table whose zone the runtime does not
    know: the exception is caught and an error result is returned. *)
Lemma get_current_time_unknown_zone (rt : Runtime) (city format_type : string)
    (city_info : CityInfo) (n : nat) :
  lookup (strip (lower city)) CITY_DATABASE = Some city_info ->
  tzdata rt (timezone city_info) = None ->
  get_current_time rt city format_type n =
  (Return
     [ ("status", VStr "error");
       ("error_message",
        VText [ Txt "Error getting time for "; Txt city; Txt ": ";
                ExnStr (ZoneInfoNotFoundError (timezone city_info)) ]) ],
   n).
Proof.
  intros Hc Hz. unfold get_current_time, member. cbv zeta. rewrite Hc.
  unfold try_except, bind, lift, getitem, ZoneInfo, raise.
  rewrite Hc, Hz. reflexivity.
Qed.

(** [get_current_time] returns a dict in every runtime: it never raises. *)
Lemma get_current_time_returns (rt : Runtime) (city format_type : string) (n : nat) :
  exists result n', get_current_time rt city format_type n = (Return result, n').
Proof.
  destruct (lookup (strip (lower city)) CITY_DATABASE) as [info |] eqn:Hc.
  - destruct (tzdata rt (timezone info)) as [offset |] eqn:Hz.
    + rewrite (get_current_time_success _ _ _ _ _ _ Hc Hz). eauto.
    + rewrite (get_current_time_unknown_zone _ _ _ _ _ Hc Hz). eauto.
  - unfold get_current_time, member. rewrite Hc. simpl. unfold ret. eauto.
Qed.

(** C10: a [format_type] that is none of "standard", "business", "iso" and
    "relative" changes nothing: the call gives what it gives for
    "standard" (in every runtime, for every name), and for a city of the
    table whose zone the runtime resolves that is the success result with
    the time in the standard format. *)
Theorem C10_unknown_format_falls_back
    (rt : Runtime) (city format_type : string) (n : nat) :
  ~ In format_type recognized_formats ->
  get_current_time rt city format_type n = get_current_time rt city "standard" n /\
  forall (city_info : CityInfo) (offset : Z -> Z),
    lookup (strip (lower city)) CITY_DATABASE = Some city_info ->
    tzdata rt (timezone city_info) = Some offset ->
    fst (get_current_time rt city format_type n) =
    Return
      [ ("status", VStr "success");
        ("report",
         VText [ Txt "🕐 Current time in "; Txt (title city); Txt ": ";
                 Strftime "%A, %B %d, %Y at %I:%M:%S %p %Z"
                   (mkDatetime (clock rt n) (timezone city_info)
                               (offset (clock rt n))) ]);
        ("timestamp",
         VText [ Isoformat (mkDatetime (clock rt n) (timezone city_info)
                                       (offset (clock rt n))) ]);
        ("timezone", VStr (timezone city_info));
        ("utc_offset",
         VText [ Strftime "%z" (mkDatetime (clock rt n) (timezone city_info)
                                           (offset (clock rt n))) ]) ].
Proof.
  intros Hf. split.
  - destruct (lookup (strip (lower city)) CITY_DATABASE) as [info |] eqn:Hc.
    + destruct (tzdata rt (timezone info)) as [offset |] eqn:Hz.
      * rewrite !(get_current_time_success _ _ _ _ _ _ Hc Hz). cbv zeta.
        rewrite get_unrecognized by exact Hf. reflexivity.
      * rewrite !(get_current_time_unknown_zone _ _ _ _ _ Hc Hz). reflexivity.
    + unfold get_current_time, member. rewrite Hc. reflexivity.
  - intros city_info offset Hc Hz.
    rewrite (get_current_time_success _ _ _ _ _ _ Hc Hz). cbv zeta.
    rewrite get_unrecognized by exact Hf. reflexivity.
Qed.

Lemma C10_unknown_format_falls_back_witness :
  get_current_time winter "London" "fancy" 0 = get_current_time winter "London" "standard" 0 /\
  fst (get_current_time winter "London" "fancy" 0) =
    Return
      [ ("status", VStr "success");
        ("report",
         VText [ Txt "🕐 Current time in "; Txt "London"; Txt ": ";
                 Strftime "%A, %B %d, %Y at %I:%M:%S %p %Z"
                   (mkDatetime 0 "Europe/London" 0) ]);
        ("timestamp", VText [ Isoformat (mkDatetime 0 "Europe/London" 0) ]);
        ("timezone", VStr "Europe/London");
        ("utc_offset", VText [ Strftime "%z" (mkDatetime 0 "Europe/London" 0) ]) ].
Proof.
  assert (Hf : ~ In "fancy" recognized_formats).
  { simpl. intros [H | [H | [H | [H | []]]]]; discriminate H. }
  split.
  - exact (proj1 (C10_unknown_format_falls_back winter "London" "fancy" 0 Hf)).
  - exact (proj2 (C10_unknown_format_falls_back winter "London" "fancy" 0 Hf)
             london (fun _ => 0%Z) eq_refl eq_refl).
Defined.

End CurrentTime.

(* ================================================================= *)
(** ** Travel information: [get_travel_info] *)

Section Travel.

Lemma offset_hours_minus (now1 now2 : datetime) :
  offset_hours now1 now2
  = ((IZR (utcoffset now1) - IZR (utcoffset now2)) / 3600)%R.
Proof. unfold offset_hours. rewrite minus_IZR. reflexivity. Qed.

Lemma time_difference_resolved (rt : Runtime) (a b : CityInfo)
    (offset_a offset_b : Z -> Z) (n : nat) :
  tzdata rt (timezone a) = Some offset_a ->
  tzdata rt (timezone b) = Some offset_b ->
  time_difference rt a b n =
  (Return ((IZR (offset_b (clock rt (S n))) - IZR (offset_a (clock rt n))) / 3600)%R,
   S (S n)).
Proof.
  intros Ha Hb. unfold time_difference, bind, ZoneInfo, now, ret.
  rewrite Ha, Hb. simpl. rewrite offset_hours_minus. reflexivity.
Qed.

Lemma time_difference_unresolved (rt : Runtime) (a b : CityInfo) (n : nat) :
  tzdata rt (timezone a) = None \/ tzdata rt (timezone b) = None ->
  exists key, time_difference rt a b n = (Raise (ZoneInfoNotFoundError key), n).
Proof.
  intros H. unfold time_difference, bind, ZoneInfo, raise, ret.
  destruct (tzdata rt (timezone a)) as [oa |] eqn:Ha.
  - destruct H as [H | H]; [discriminate |]. rewrite H.
    exists (timezone b). reflexivity.
  - exists (timezone a). reflexivity.
Qed.

Lemma ahead_iff_positive (time_diff : R) :
  ahead_or_behind time_diff = "ahead" <-> (time_diff > 0)%R.
Proof.
  unfold ahead_or_behind. destruct (Rlt_dec 0 time_diff) as [H | H].
  - split; [intros _; exact H | reflexivity].
  - split; [discriminate | intros H'; contradiction].
Qed.



(** London to Tokyo at a winter instant: nine hours, Tokyo ahead. *)
Example london_tokyo_winter :
  time_difference winter london tokyo 0 = (Return 9%R, 2%nat) /\
  ahead_or_behind 9 = "ahead".
Proof.
  split.
  - rewrite (time_difference_resolved winter london tokyo
               (fun _ => 0%Z) (fun _ => 32400%Z) 0 eq_refl eq_refl).
    do 2 f_equal. lra.
  - apply ahead_iff_positive. lra.
Qed.

(** The "time" branch of [compare_cities] (lines 288-319) for two names
    that are keys of the table as they are lower-cased, in a runtime that
    resolves both zones: the difference is the offset of [city1] minus the
    offset of [city2], in hours, and [city1] is the one reported ahead
    exactly when it is above zero. *)
Lemma compare_time_success (rt : Runtime) (city1 city2 : string)
    (info1 info2 : CityInfo) (offset1 offset2 : Z -> Z) (n : nat) :
  lookup (strip (lower city1)) CITY_DATABASE = Some info1 ->
  lookup (strip (lower city2)) CITY_DATABASE = Some info2 ->
  lookup (lower city1) CITY_DATABASE = Some info1 ->
  lookup (lower city2) CITY_DATABASE = Some info2 ->
  tzdata rt (timezone info1) = Some offset1 ->
  tzdata rt (timezone info2) = Some offset2 ->
  compare_cities rt city1 city2 "time" n =
  (let now1 := mkDatetime (clock rt (S (S n))) (timezone info1)
                          (offset1 (clock rt (S (S n)))) in
   let now2 := mkDatetime (clock rt (S (S (S n)))) (timezone info2)
                          (offset2 (clock rt (S (S (S n))))) in
   let diff := offset_hours now1 now2 in
   (Return
      [ ("status", VStr "success");
        ("report",
         VText
           [ Txt "🕐 Time Comparison: "; Txt (title city1); Txt " vs ";
             Txt (title city2); Txt (nl ++ nl);
             Txt (title city1); Txt ": "; Strftime "%I:%M %p %Z" now1; Txt nl;
             Txt (title city2); Txt ": "; Strftime "%I:%M %p %Z" now2;
             Txt (nl ++ nl);
             Txt "⏰ Time difference: "; Fixed 0 (Rabs diff); Txt " hours ";
             Txt "(";
             Txt (if Rlt_dec 0 diff then title city1 else title city2);
             Txt " is ahead)" ]) ],
    S (S (S (S n))))).
Proof.
  intros Hs1 Hs2 Hl1 Hl2 Hz1 Hz2.
  unfold compare_cities.
  replace (String.eqb "time" "weather") with false by reflexivity.
  replace (String.eqb "time" "time") with true by reflexivity.
  cbv iota. unfold bind at 1.
  rewrite (get_current_time_success _ _ _ _ _ _ Hs1 Hz1). cbv beta iota zeta.
  unfold bind at 1.
  rewrite (get_current_time_success _ _ _ _ _ _ Hs2 Hz2). cbv beta iota zeta.
  change (status_is_error _ || status_is_error _) with false. cbv iota.
  unfold bind, lift, getitem, ZoneInfo, now, ret.
  rewrite Hl1, Hz1, Hl2, Hz2. reflexivity.
Qed.

(** The f-string of lines 460-467 names [dest], which the locals of
    [get_travel_info] and the module do not bind. *)
Lemma travel_report_name_error (origin destination origin_lower dest_lower : string)
    (origin_info dest_info : CityInfo) (distance time_diff : R) :
  travel_report [ ("origin", origin); ("destination", destination);
                  ("origin_lower", origin_lower); ("dest_lower", dest_lower) ]
                origin_info dest_info distance time_diff
  = Raise (NameError "dest").
Proof. reflexivity. Qed.

(** The steps of [get_travel_info] for two names found in the table. *)
Lemma get_travel_info_found (rt : Runtime) (origin destination : string)
    (origin_info dest_info : CityInfo) (n : nat) :
  lookup (strip (lower origin)) CITY_DATABASE = Some origin_info ->
  lookup (strip (lower destination)) CITY_DATABASE = Some dest_info ->
  get_travel_info rt origin destination n =
  match distance_km origin_info dest_info with
  | Raise e => (Raise e, n)
  | Return _ =>
      match time_difference rt origin_info dest_info n with
      | (Raise e, n') => (Raise e, n')
      | (Return _, n') => (Raise (NameError "dest"), n')
      end
  end.
Proof.
  intros Ho Hd. unfold get_travel_info, member. cbv zeta. rewrite Ho, Hd.
  change (negb true || negb true) with false. cbv iota.
  unfold bind, lift, getitem. rewrite Ho, Hd.
  destruct (distance_km origin_info dest_info) as [d | e]; [| reflexivity].
  destruct (time_difference rt origin_info dest_info n) as [[t | e] n'];
    [| reflexivity].
  rewrite travel_report_name_error. reflexivity.
Qed.

Lemma london_paris_distance_returns :
  exists d, distance_km london paris = Return d.
Proof.
  eexists. apply distance_km_defined.
Qed.

(** C3: evaluated where the claim fails. In a runtime whose time zone
    database lacks the zones, [get_travel_info] for London and Paris ends
    in an uncaught [ZoneInfoNotFoundError], while [get_current_time], in
    the same runtime, catches it and returns an error result; and in a
    runtime that resolves both zones the same call ends in an uncaught
    [NameError]. *)
Theorem C3_travel_info_raises :
  run (get_travel_info no_tzdata "london" "paris")
    = Raise (ZoneInfoNotFoundError "Europe/London") /\
  run (get_current_time no_tzdata "london" "standard")
    = Return [ ("status", VStr "error");
               ("error_message",
                VText [ Txt "Error getting time for "; Txt "london"; Txt ": ";
                        ExnStr (ZoneInfoNotFoundError "Europe/London") ]) ] /\
  run (get_travel_info winter "london" "paris") = Raise (NameError "dest").
Proof.
  destruct london_paris_distance_returns as [d Hd].
  assert (Hl : lookup (strip (lower "london")) CITY_DATABASE = Some london)
    by reflexivity.
  assert (Hp : lookup (strip (lower "paris")) CITY_DATABASE = Some paris)
    by reflexivity.
  split; [| split].
  - unfold run. rewrite (get_travel_info_found _ _ _ _ _ _ Hl Hp), Hd.
    reflexivity.
  - unfold run.
    rewrite (get_current_time_unknown_zone no_tzdata _ _ _ _ Hl eq_refl).
    reflexivity.
  - unfold run. rewrite (get_travel_info_found _ _ _ _ _ _ Hl Hp), Hd.
    rewrite (time_difference_resolved winter london paris
               (fun _ => 0%Z) (fun _ => 3600%Z) 0 eq_refl eq_refl).
    reflexivity.
Qed.

(** C7: evaluated where the claim fails. For London and Tokyo, in a
    runtime that resolves both zones, the call ends in [NameError] at line
    461, before line 462 works out the miles: no result with a distance is
    produced. The report, the only place where miles would appear, is
    never built, and no dict the function returns has a distance or a
    report. *)
Theorem C7_no_distance_result :
  run (get_travel_info winter "London" "Tokyo") = Raise (NameError "dest") /\
  (forall (origin_info dest_info : CityInfo) (distance time_diff : R),
      travel_report [ ("origin", "London"); ("destination", "Tokyo");
                      ("origin_lower", "london"); ("dest_lower", "tokyo") ]
                    origin_info dest_info distance time_diff
      = Raise (NameError "dest")) /\
  (forall (rt : Runtime) (origin destination : string) (result : dict),
      run (get_travel_info rt origin destination) = Return result ->
      lookup "distance_km" result = None /\ lookup "report" result = None).
Proof.
  split; [| split].
  - assert (Hl : lookup (strip (lower "London")) CITY_DATABASE = Some london)
      by reflexivity.
    assert (Ht : lookup (strip (lower "Tokyo")) CITY_DATABASE = Some tokyo)
      by reflexivity.
    unfold run. rewrite (get_travel_info_found _ _ _ _ _ _ Hl Ht).
    rewrite distance_km_defined.
    rewrite (time_difference_resolved winter london tokyo
               (fun _ => 0%Z) (fun _ => 32400%Z) 0 eq_refl eq_refl).
    reflexivity.
  - intros. reflexivity.
  - intros rt origin destination result. unfold run.
    destruct (lookup (strip (lower origin)) CITY_DATABASE) as [oi |] eqn:Ho.
    + destruct (lookup (strip (lower destination)) CITY_DATABASE)
        as [di |] eqn:Hd.
      * rewrite (get_travel_info_found _ _ _ _ _ _ Ho Hd).
        destruct (distance_km oi di) as [d | e]; [| discriminate].
        destruct (time_difference rt oi di 0) as [[t | e] n']; discriminate.
      * unfold get_travel_info, member. cbv zeta. rewrite Ho, Hd.
        cbn [negb orb fst ret]. intros E. injection E as <-.
        split; reflexivity.
    + unfold get_travel_info, member. cbv zeta. rewrite Ho.
      cbn [negb orb fst ret]. intros E. injection E as <-.
      split; reflexivity.
Qed.

(** X1: for two names found in the table, [get_travel_info] returns no dict
    in any runtime: the call ends in an exception. *)
Theorem get_travel_info_never_returns (rt : Runtime) (origin destination : string) :
  member (strip (lower origin)) CITY_DATABASE = true ->
  member (strip (lower destination)) CITY_DATABASE = true ->
  exists e : exn, run (get_travel_info rt origin destination) = Raise e.
Proof.
  intros Ho Hd.
  apply member_lookup in Ho. destruct Ho as [oi Ho].
  apply member_lookup in Hd. destruct Hd as [di Hd].
  unfold run. rewrite (get_travel_info_found _ _ _ _ _ _ Ho Hd).
  destruct (distance_km oi di) as [d | e]; [| simpl; eauto].
  destruct (time_difference rt oi di 0) as [[t | e] n']; simpl; eauto.
Qed.

Lemma get_travel_info_never_returns_witness :
  exists e : exn, run (get_travel_info winter "London" " Tokyo ") = Raise e.
Proof.
  apply (get_travel_info_never_returns winter "London" " Tokyo "); reflexivity.
Defined.

End Travel.

(* ================================================================= *)
(** ** The known value: London to Paris *)

Section KnownValue.

Local Open Scope R_scope.

Lemma PI_bounds : 3.14159 < PI < 3.1416.
Proof.
  pose proof (PI_2_3_7_ineq 2) as H.
  unfold tg_alt, PI_2_3_7_tg, Ratan_seq in H. simpl in H. lra.
Qed.

Lemma cos_lb_poly (a : R) :
  cos_lb a = 1 - a ^ 2 / 2 + a ^ 4 / 24 - a ^ 6 / 720.
Proof.
  unfold cos_lb, cos_approx, cos_term. cbn [sum_f_R0].
  rewrite !INR_IZR_INZ.
  replace (Z.of_nat (fact (2 * 0))) with 1%Z by reflexivity.
  replace (Z.of_nat (fact (2 * 1))) with 2%Z by reflexivity.
  replace (Z.of_nat (fact (2 * 2))) with 24%Z by reflexivity.
  replace (Z.of_nat (fact (2 * 3))) with 720%Z by reflexivity.
  simpl Nat.mul. field.
Qed.

Lemma cos_ub_poly (a : R) :
  cos_ub a = 1 - a ^ 2 / 2 + a ^ 4 / 24 - a ^ 6 / 720 + a ^ 8 / 40320.
Proof.
  unfold cos_ub, cos_approx, cos_term. cbn [sum_f_R0].
  rewrite !INR_IZR_INZ.
  replace (Z.of_nat (fact (2 * 0))) with 1%Z by reflexivity.
  replace (Z.of_nat (fact (2 * 1))) with 2%Z by reflexivity.
  replace (Z.of_nat (fact (2 * 2))) with 24%Z by reflexivity.
  replace (Z.of_nat (fact (2 * 3))) with 720%Z by reflexivity.
  replace (Z.of_nat (fact (2 * 4))) with 40320%Z by (vm_compute; reflexivity).
  simpl Nat.mul. field.
Qed.

(** The cosine between the Taylor bounds at two arguments around [x]. *)
Lemma cos_between (x lo hi : R) :
  0 <= lo -> lo <= x -> x <= hi -> hi <= 3 / 2 ->
  cos_lb hi <= cos x <= cos_ub lo.
Proof.
  intros H0 Hlo Hhi H32.
  pose proof PI2_3_2 as Hpi.
  assert (Hx : cos hi <= cos x <= cos lo) by (split; apply cos_decr_1; lra).
  assert (Bhi : cos_lb hi <= cos hi <= cos_ub hi) by (apply COS; lra).
  assert (Blo : cos_lb lo <= cos lo <= cos_ub lo) by (apply COS; lra).
  lra.
Qed.

(** The cosine of [deg] degrees, between two decimals computed from the
    bounds of pi. *)
Lemma cos_degrees_between (deg : R) :
  0 <= deg <= 85 ->
  cos_lb (deg * (3.1416 / 180)) <= cos (deg * (PI / 180))
    <= cos_ub (deg * (3.14159 / 180)).
Proof.
  intros Hd. pose proof PI_bounds as HP.
  apply cos_between; nra.
Qed.

Lemma asin_sqrt_above (theta h : R) :
  0 < theta <= PI / 2 -> theta ^ 2 < h -> h <= 1 -> theta < asin (sqrt h).
Proof.
  intros Ht Hlo Hhi.
  assert (H0 : 0 <= h) by nra.
  pose proof (sqrt_unit_range h (conj H0 Hhi)) as Hs.
  pose proof (asin_bound (sqrt h)) as Hb.
  apply Rnot_le_lt. intros Hc.
  assert (Hsin : sin (asin (sqrt h)) <= sin theta) by (apply sin_incr_1; lra).
  rewrite sin_asin in Hsin by lra.
  pose proof (sin_lt_x theta (proj1 Ht)) as Hx.
  pose proof (sqrt_sqrt h H0) as Hsq. nra.
Qed.

Lemma asin_sqrt_below (theta h : R) :
  0 <= theta <= PI / 2 -> 0 <= h -> h < sin theta ^ 2 -> asin (sqrt h) < theta.
Proof.
  intros Ht H0 Hhi.
  assert (Hst : 0 <= sin theta) by (apply sin_ge_0; pose proof PI_RGT_0; lra).
  pose proof (SIN_bound theta) as Hsb.
  assert (H1 : h <= 1) by nra.
  pose proof (sqrt_unit_range h (conj H0 H1)) as Hs.
  pose proof (asin_bound (sqrt h)) as Hb.
  apply Rnot_le_lt. intros Hc.
  assert (Hsin : sin theta <= sin (asin (sqrt h))) by (apply sin_incr_1; lra).
  rewrite sin_asin in Hsin by lra.
  pose proof (sqrt_sqrt h H0) as Hsq. nra.
Qed.

(** The value of line 448 for London and Paris. *)
Lemma haversine_london_paris :
  haversine_of london paris =
  (1 - cos (2.6508 * (PI / 180))) / 2
  + cos (51.5074 * (PI / 180)) * cos (48.8566 * (PI / 180))
    * ((1 - cos (2.48 * (PI / 180))) / 2).
Proof.
  unfold haversine_of, haversine_a, radians, london, paris.
  cbn [coordinates fst snd]. cbv zeta. rewrite !sin_half_sqr.
  replace (48.8566 * (PI / 180) - 51.5074 * (PI / 180))
    with (- (2.6508 * (PI / 180))) by lra.
  replace (2.3522 * (PI / 180) - -0.1278 * (PI / 180))
    with (2.48 * (PI / 180)) by lra.
  rewrite cos_neg. reflexivity.
Qed.

Lemma haversine_london_paris_bounds :
  0.00072676 < haversine_of london paris < 0.00072685.
Proof.
  rewrite haversine_london_paris.
  pose proof (cos_degrees_between 51.5074 ltac:(lra)) as C1.
  pose proof (cos_degrees_between 48.8566 ltac:(lra)) as C2.
  pose proof (cos_degrees_between 2.6508 ltac:(lra)) as D1.
  pose proof (cos_degrees_between 2.48 ltac:(lra)) as D2.
  rewrite cos_lb_poly, cos_ub_poly in C1, C2, D1, D2.
  set (c1 := cos (51.5074 * (PI / 180))) in *.
  set (c2 := cos (48.8566 * (PI / 180))) in *.
  set (d1 := cos (2.6508 * (PI / 180))) in *.
  set (d2 := cos (2.48 * (PI / 180))) in *.
  assert (B1 : 0.6224014 <= c1 <= 0.6224143) by lra.
  assert (B2 : 0.6579374 <= c2 <= 0.6579465) by lra.
  assert (B3 : 0.9989299 <= d1 <= 0.99893) by lra.
  assert (B4 : 0.9990633 <= d2 <= 0.9990634) by lra.
  clear C1 C2 D1 D2.
  assert (P : 0.6224014 * 0.6579374 <= c1 * c2 <= 0.6224143 * 0.6579465).
  { split; apply Rmult_le_compat; lra. }
  assert (Q : 0.6224014 * 0.6579374 * ((1 - 0.9990634) / 2)
              <= c1 * c2 * ((1 - d2) / 2)
              <= 0.6224143 * 0.6579465 * ((1 - 0.9990633) / 2)).
  { split; apply Rmult_le_compat; lra. }
  lra.
Qed.

(** The formula of the specification and lines 442-450 are the same
    expression. *)
Lemma spec_haversine_km_eq (lat1 lon1 lat2 lon2 : R) :
  spec_haversine_km lat1 lon1 lat2 lon2 =
  6371 * (2 * asin (sqrt (haversine_a (radians lat1) (radians lon1)
                                      (radians lat2) (radians lon2)))).
Proof.
  unfold spec_haversine_km, haversine_a, radians, Rsqr. cbv zeta.
  replace (lat1 * PI / 180) with (lat1 * (PI / 180)) by (unfold Rdiv; ring).
  replace (lon1 * PI / 180) with (lon1 * (PI / 180)) by (unfold Rdiv; ring).
  replace (lat2 * PI / 180) with (lat2 * (PI / 180)) by (unfold Rdiv; ring).
  replace (lon2 * PI / 180) with (lon2 * (PI / 180)) by (unfold Rdiv; ring).
  do 4 f_equal. simpl. ring.
Qed.

Lemma sin_sqr_lower (theta : R) :
  0 <= theta <= 3 / 4 -> (1 - cos_ub (2 * theta)) / 2 <= sin theta ^ 2.
Proof.
  intros Ht. pose proof PI2_3_2 as Hpi.
  replace theta with (2 * theta / 2) at 2 by field.
  rewrite sin_half_sqr.
  pose proof (COS (2 * theta) ltac:(lra) ltac:(lra)). lra.
Qed.

Lemma london_paris_kilometres :
  343.5 < 6371 * (2 * asin (sqrt (haversine_of london paris))) < 343.6.
Proof.
  pose proof haversine_london_paris_bounds as [Hlo Hhi].
  pose proof PI2_3_2 as Hpi.
  assert (Hl : 343.5 / 12742 < asin (sqrt (haversine_of london paris))).
  { apply asin_sqrt_above; lra. }
  assert (Hu : asin (sqrt (haversine_of london paris)) < 343.6 / 12742).
  { apply asin_sqrt_below; [lra | lra |].
    pose proof (sin_sqr_lower (343.6 / 12742) ltac:(lra)) as Hs.
    rewrite cos_ub_poly in Hs. lra. }
  lra.
Qed.

Lemma round_between (x : R) (z : Z) :
  IZR z + 1 / 2 < x < IZR z + 1 -> round x = (z + 1)%Z.
Proof.
  intros Hx.
  assert (Hz : z = Int_part x) by (apply Int_part_spec; lra).
  unfold round. unfold frac_part. rewrite <- Hz.
  destruct (Rlt_dec (x - IZR z) (1 / 2)); [lra |].
  destruct (Rlt_dec (1 / 2) (x - IZR z)); [reflexivity | lra].
Qed.

(** C4: the distance computed at lines 442-450 is the haversine formula of
    the specification with the radius 6371; for London and Paris, with the
    coordinates of the table, it is between 343.5 and 343.6 kilometres,
    within the 343-344 of the claim, and [round] makes it 344. *)
Theorem C4_haversine_formula :
  (forall a b : CityInfo,
      distance_km a b =
      Return (spec_haversine_km (fst (coordinates a)) (snd (coordinates a))
                                (fst (coordinates b)) (snd (coordinates b)))) /\
  lookup "london" CITY_DATABASE = Some london /\
  lookup "paris" CITY_DATABASE = Some paris /\
  coordinates london = (51.5074, -0.1278) /\
  coordinates paris = (48.8566, 2.3522) /\
  exists d : R,
    distance_km london paris = Return d /\
    343 < d < 344 /\ 343.5 < d < 343.6 /\ round d = 344%Z.
Proof.
  split.
  { intros a b. rewrite spec_haversine_km_eq. apply distance_km_defined. }
  do 4 (split; [reflexivity |]).
  exists (6371 * (2 * asin (sqrt (haversine_of london paris)))).
  pose proof london_paris_kilometres as Hd.
  split; [apply distance_km_defined |].
  split; [lra |]. split; [exact Hd |].
  apply (round_between _ 343%Z). lra.
Qed.

End KnownValue.

(* ================================================================= *)
(** ** The forecast: [get_weather_forecast] *)

Section Forecast.

Lemma flat_map_seq_S {A : Type} (f : nat -> list A) (m : nat) :
  flat_map f (seq 0 (S m)) = app (f 0%nat) (flat_map (fun j => f (S j)) (seq 0 m)).
Proof.
  simpl. f_equal. rewrite <- seq_shift.
  induction (seq 0 m) as [| x l IH]; simpl; [reflexivity |].
  rewrite IH. reflexivity.
Qed.

(** The loop of lines 364-371 over [range(m)], started after [n] readings
    of the clock: one line per day, the [j]-th with the date read at the
    [(n + j)]-th reading. *)
Lemma forecast_loop_lines (rt : Runtime) (cal : Calendar) (w : Weather)
    (m s : nat) (report : text) (n : nat) :
  forecast_loop rt cal w (seq s m) report n =
  (Return (app report
             (flat_map (fun j => forecast_entry cal w
                                   (local_date cal (clock rt (n + j))) (s + j))
                       (seq 0 m))),
   (n + m)%nat).
Proof.
  revert s report n. induction m as [| m IH]; intros s report n.
  - simpl. unfold ret. rewrite app_nil_r, Nat.add_0_r. reflexivity.
  - rewrite flat_map_seq_S. cbn [seq forecast_loop].
    unfold bind at 1. unfold forecast_line, bind, date_today, ret.
    rewrite IH. rewrite <- app_assoc, !Nat.add_0_r.
    replace (S n + m)%nat with (n + S m)%nat by lia.
    do 4 f_equal.
    apply flat_map_ext. intros j.
    replace (S n + j)%nat with (n + S j)%nat by lia.
    replace (S s + j)%nat with (s + S j)%nat by lia. reflexivity.
Qed.

(** A forecast for a city of the weather table and a number of days from
    1 to 7. *)
Lemma forecast_success (rt : Runtime) (cal : Calendar) (city : string)
    (days : Z) (n : nat) (base_weather : Weather) :
  lookup (strip (lower city)) WEATHER_DATA = Some base_weather ->
  (1 <= days <= 7)%Z ->
  get_weather_forecast rt cal city days n =
  (Return
     [ ("status", VStr "success");
       ("report",
        VText (app (forecast_header city days)
                   (flat_map
                      (fun j => forecast_entry cal base_weather
                                  (local_date cal (clock rt (n + j))) j)
                      (seq 0 (Z.to_nat days)))));
       ("forecast_days", VInt days) ],
   (n + Z.to_nat days)%nat).
Proof.
  intros Hc Hd. unfold get_weather_forecast, member. cbv zeta. rewrite Hc.
  cbn [negb].
  replace ((days <? 1)%Z || (7 <? days)%Z) with false
    by (symmetry; apply orb_false_iff; split; apply Z.ltb_ge; lia).
  unfold bind at 1. unfold lift, getitem. rewrite Hc.
  unfold bind. rewrite forecast_loop_lines. reflexivity.
Qed.

(** X3: the three ways a call of [get_weather_forecast] ends for a name of
    ASCII characters, none of them an exception: the city check comes
    first, then the check of [days], and a forecast has one line per day
    and reads the clock once per day. *)
Theorem forecast_outcome (rt : Runtime) (cal : Calendar)
    (city : string) (days : Z) (n : nat) :
  is_ascii city = true ->
  (member (strip (lower city)) WEATHER_DATA = false /\
   get_weather_forecast rt cal city days n =
   (Return [ ("status", VStr "error");
             ("error_message",
              VText [ Txt "Weather forecast data for '"; Txt city;
                      Txt "' not available in my database. I can try to search the web for it." ]) ],
    n))
  \/
  (member (strip (lower city)) WEATHER_DATA = true /\
   (days < 1 \/ 7 < days)%Z /\
   get_weather_forecast rt cal city days n =
   (Return [ ("status", VStr "error");
             ("error_message", VStr "Forecast days must be between 1 and 7") ],
    n))
  \/
  (exists base_weather : Weather,
      lookup (strip (lower city)) WEATHER_DATA = Some base_weather /\
      (1 <= days <= 7)%Z /\
      get_weather_forecast rt cal city days n =
      (Return
         [ ("status", VStr "success");
           ("report",
            VText (app (forecast_header city days)
                       (flat_map
                          (fun j => forecast_entry cal base_weather
                                      (local_date cal (clock rt (n + j))) j)
                          (seq 0 (Z.to_nat days)))));
           ("forecast_days", VInt days) ],
       (n + Z.to_nat days)%nat)).
Proof.
  intros _.
  destruct (lookup (strip (lower city)) WEATHER_DATA) as [w |] eqn:Hc.
  - destruct ((days <? 1)%Z || (7 <? days)%Z) eqn:Hd.
    + right. left.
      split; [unfold member; rewrite Hc; reflexivity |].
      split.
      * apply orb_true_iff in Hd. destruct Hd as [Hd | Hd];
          apply Z.ltb_lt in Hd; [left | right]; exact Hd.
      * unfold get_weather_forecast, member. cbv zeta. rewrite Hc, Hd.
        reflexivity.
    + right. right. exists w. split; [reflexivity |].
      apply orb_false_iff in Hd. destruct Hd as [H1 H7].
      apply Z.ltb_ge in H1. apply Z.ltb_ge in H7.
      split; [lia |]. apply forecast_success; [exact Hc | lia].
  - left. unfold get_weather_forecast, member. rewrite Hc.
    split; reflexivity.
Qed.

Lemma forecast_outcome_witness :
  get_weather_forecast winter plain_calendar " Paris " 9 0 =
  (Return [ ("status", VStr "error");
            ("error_message", VStr "Forecast days must be between 1 and 7") ],
   0%nat).
Proof.
  destruct (forecast_outcome winter plain_calendar " Paris " 9 0 eq_refl)
    as [[Hm _] | [(_ & _ & E) | (w & _ & Hd & _)]].
  - discriminate Hm.
  - exact E.
  - lia.
Defined.

Lemma int_quot_5 (m : Z) : int (IZR m / 5)%R = Z.quot m 5.
Proof.
  unfold int.
  destruct (Rle_dec 0 (IZR m / 5)%R) as [Hx | Hx].
  - assert (Hm : (0 <= m)%Z).
    { apply le_IZR. lra. }
    rewrite Z.quot_div_nonneg by lia.
    symmetry. apply Int_part_spec.
    pose proof (Z.div_mod m 5 ltac:(lia)) as E.
    pose proof (Z.mod_pos_bound m 5 ltac:(lia)) as B.
    assert (E' : (IZR m = 5 * IZR (m / 5) + IZR (m mod 5))%R).
    { rewrite E at 1. rewrite plus_IZR, mult_IZR. reflexivity. }
    destruct B as [B0 B5]. apply IZR_le in B0. apply IZR_lt in B5.
    lra.
  - assert (Hm : (m < 0)%Z).
    { apply lt_IZR. lra. }
    replace m with (- - m)%Z at 2 by lia.
    rewrite Z.quot_opp_l by lia.
    rewrite Z.quot_div_nonneg by lia.
    f_equal. symmetry. apply Int_part_spec.
    pose proof (Z.div_mod (- m) 5 ltac:(lia)) as E.
    pose proof (Z.mod_pos_bound (- m) 5 ltac:(lia)) as B.
    assert (E' : (IZR (- m) = 5 * IZR (- m / 5) + IZR (- m mod 5))%R).
    { rewrite E at 1. rewrite plus_IZR, mult_IZR. reflexivity. }
    rewrite opp_IZR in E'.
    destruct B as [B0 B5]. apply IZR_le in B0. apply IZR_lt in B5.
    lra.
Qed.

(** X4: the temperatures of a forecast. On each of the seven possible days
    the Celsius figure is today's, lowered by at most five degrees and
    never raised; the Fahrenheit figure is [9 c / 5 + 32] cut towards
    zero. *)
Theorem forecast_temperatures (base_weather : Weather) (i : Z) :
  (0 <= i < 7)%Z ->
  (temperature_c base_weather - 5 <= forecast_temp_c base_weather i
     <= temperature_c base_weather)%Z /\
  forecast_temp_f (forecast_temp_c base_weather i)
  = Z.quot (9 * forecast_temp_c base_weather i + 160) 5.
Proof.
  intros Hi. split.
  - unfold forecast_temp_c, temp_variation.
    destruct (i <? 3)%Z eqn:E;
      [apply Z.ltb_lt in E | apply Z.ltb_ge in E]; lia.
  - unfold forecast_temp_f.
    replace (IZR (forecast_temp_c base_weather i * 9) / 5 + 32)%R
      with (IZR (9 * forecast_temp_c base_weather i + 160) / 5)%R
      by (rewrite plus_IZR, !mult_IZR; field).
    apply int_quot_5.
Qed.

Lemma forecast_temperatures_witness :
  (16 - 5 <= 13 <= 16)%Z /\
  forecast_temp_f 13 = Z.quot (9 * 13 + 160) 5.
Proof.
  exact (forecast_temperatures
           (mkWeather "rainy" 16 61 80 20 "NW" 1005.2%R 6 2 "Good" 14 57 [])
           4 ltac:(lia)).
Defined.

(** X5: a shorter forecast is the beginning of a longer one: for the same
    city, from the same state of the clock, the lines of the forecast for
    [days1] days are the first lines of the forecast for [days2 >= days1]
    days (the headers differ by the number of days they name). *)
Theorem forecast_prefix (rt : Runtime) (cal : Calendar) (city : string)
    (days1 days2 : Z) (n : nat) :
  member (strip (lower city)) WEATHER_DATA = true ->
  (1 <= days1)%Z -> (days1 <= days2)%Z -> (days2 <= 7)%Z ->
  exists lines more : text,
    List.length lines = (9 * Z.to_nat days1)%nat /\
    List.length more = (9 * (Z.to_nat days2 - Z.to_nat days1))%nat /\
    fst (get_weather_forecast rt cal city days1 n) =
      Return [ ("status", VStr "success");
               ("report", VText (app (forecast_header city days1) lines));
               ("forecast_days", VInt days1) ] /\
    fst (get_weather_forecast rt cal city days2 n) =
      Return [ ("status", VStr "success");
               ("report",
                VText (app (forecast_header city days2) (app lines more)));
               ("forecast_days", VInt days2) ].
Proof.
  intros Hm H1 H12 H7.
  unfold member in Hm.
  destruct (lookup (strip (lower city)) WEATHER_DATA) as [w |] eqn:Hc;
    [| discriminate].
  rewrite (forecast_success rt cal city days1 n w Hc) by lia.
  rewrite (forecast_success rt cal city days2 n w Hc) by lia.
  set (f := fun j => forecast_entry cal w (local_date cal (clock rt (n + j))) j).
  assert (Hlen : forall s m, List.length (flat_map f (seq s m)) = (9 * m)%nat).
  { intros s m. revert s. induction m as [| m IH]; intros s; [reflexivity |].
    cbn [seq flat_map]. rewrite length_app, IH. unfold f at 1. simpl. lia. }
  exists (flat_map f (seq 0 (Z.to_nat days1))).
  exists (flat_map f (seq (Z.to_nat days1) (Z.to_nat days2 - Z.to_nat days1))).
  split; [apply Hlen |]. split; [apply Hlen |].
  split; [reflexivity |].
  cbn [fst]. rewrite <- flat_map_app, <- seq_app.
  replace (Z.to_nat days1 + (Z.to_nat days2 - Z.to_nat days1))%nat
    with (Z.to_nat days2) by lia.
  reflexivity.
Qed.

Lemma forecast_prefix_witness :
  exists lines more : text,
    List.length lines = (9 * Z.to_nat 2)%nat /\
    List.length more = (9 * (Z.to_nat 5 - Z.to_nat 2))%nat /\
    fst (get_weather_forecast winter plain_calendar "Paris" 2 0) =
      Return [ ("status", VStr "success");
               ("report", VText (app (forecast_header "Paris" 2) lines));
               ("forecast_days", VInt 2) ] /\
    fst (get_weather_forecast winter plain_calendar "Paris" 5 0) =
      Return [ ("status", VStr "success");
               ("report",
                VText (app (forecast_header "Paris" 5) (app lines more)));
               ("forecast_days", VInt 5) ].
Proof.
  apply (forecast_prefix winter plain_calendar "Paris" 2 5 0);
    [reflexivity | lia | lia | lia].
Defined.

End Forecast.

(* ================================================================= *)
(** ** More on the great-circle distance *)

Section DistanceGeometry.

Local Open Scope R_scope.

(** X6: the distance is never more than half the circumference of the
    sphere of radius 6371: for every pair of records the computation
    returns a value between 0 and [6371 pi], below 20016 kilometres. *)
Theorem distance_km_at_most_half_turn (a b : CityInfo) :
  exists d : R,
    distance_km a b = Return d /\ 0 <= d <= 6371 * PI /\ d < 20016.
Proof.
  exists (6371 * (2 * asin (sqrt (haversine_of a b)))).
  split; [apply distance_km_defined |].
  pose proof (sqrt_unit_range _ (haversine_of_range a b)) as Hs.
  pose proof (asin_nonneg _ Hs) as H0.
  pose proof (asin_bound (sqrt (haversine_of a b))) as [_ H1].
  pose proof PI_bounds as HP.
  split; [split |]; lra.
Qed.

(** In exact arithmetic the value of line 448 is exactly 1 for two
    antipodal records. *)
Lemma haversine_of_antipodal (a b : CityInfo) :
  fst (coordinates b) = - fst (coordinates a) ->
  snd (coordinates b) = snd (coordinates a) + 180 ->
  haversine_of a b = 1.
Proof.
  intros Hlat Hlon.
  unfold haversine_of, haversine_a, radians. cbv zeta.
  rewrite Hlat, Hlon. rewrite !sin_half_sqr.
  replace ((snd (coordinates a) + 180) * (PI / 180)
           - snd (coordinates a) * (PI / 180)) with PI by field.
  replace (- fst (coordinates a) * (PI / 180)
           - fst (coordinates a) * (PI / 180))
    with (- (2 * (fst (coordinates a) * (PI / 180)))) by field.
  replace (- fst (coordinates a) * (PI / 180))
    with (- (fst (coordinates a) * (PI / 180))) by field.
  rewrite !cos_neg, cos_PI, cos_2a_cos. field.
Qed.

(** X7: two antipodal records in range (opposite latitudes, longitudes
    half a turn apart) are half the circumference apart, to within a
    metre: [h] is 1 up to rounding, and the distance is [6371 pi]. *)
Theorem distance_km_antipodal (a b : CityInfo) :
  valid_coordinates a -> valid_coordinates b ->
  fst (coordinates b) = - fst (coordinates a) ->
  snd (coordinates b) = snd (coordinates a) + 180 ->
  exists d : R,
    distance_km a b = Return d /\
    Rabs (d - 6371 * PI) <= 0.001 /\
    Rabs (haversine_of a b - 1) <= 1e-9.
Proof.
  intros _ _ Hlat Hlon.
  pose proof (haversine_of_antipodal a b Hlat Hlon) as E.
  exists (6371 * PI).
  split; [rewrite distance_km_defined, E, sqrt_1, asin_1; f_equal; field |].
  rewrite E.
  replace (6371 * PI - 6371 * PI) with 0 by ring.
  replace (1 - 1) with 0 by ring.
  rewrite Rabs_R0. split; lra.
Qed.

Lemma distance_km_antipodal_witness :
  exists d : R,
    distance_km north_pole south_pole = Return d /\
    Rabs (d - 6371 * PI) <= 0.001 /\
    Rabs (haversine_of north_pole south_pole - 1) <= 1e-9.
Proof.
  apply (distance_km_antipodal north_pole south_pole);
    unfold valid_coordinates, north_pole, south_pole; simpl; lra.
Defined.

(** In exact arithmetic a longitude written a full turn further east gives
    the same value at line 448. *)
Lemma haversine_of_full_turn (a b b' : CityInfo) :
  fst (coordinates b') = fst (coordinates b) ->
  snd (coordinates b') = snd (coordinates b) + 360 ->
  haversine_of a b' = haversine_of a b.
Proof.
  intros Hlat Hlon.
  unfold haversine_of, haversine_a, radians. cbv zeta.
  rewrite Hlat, Hlon. rewrite !sin_half_sqr.
  replace ((snd (coordinates b) + 360) * (PI / 180)
           - snd (coordinates a) * (PI / 180))
    with ((snd (coordinates b) * (PI / 180)
           - snd (coordinates a) * (PI / 180)) + 2 * PI) by field.
  rewrite cos_plus, cos_2PI, sin_2PI.
  replace (cos (snd (coordinates b) * (PI / 180)
                - snd (coordinates a) * (PI / 180)) * 1
           - sin (snd (coordinates b) * (PI / 180)
                  - snd (coordinates a) * (PI / 180)) * 0)
    with (cos (snd (coordinates b) * (PI / 180)
               - snd (coordinates a) * (PI / 180))) by ring.
  reflexivity.
Qed.

(** X8: the two ways of writing the date line agree: for a destination at
    longitude -180 and the same place written at longitude 180, the
    distances from any record in range are the same, to within a metre. *)
Theorem distance_km_date_line (a b b' : CityInfo) :
  valid_coordinates a -> valid_coordinates b ->
  fst (coordinates b') = fst (coordinates b) ->
  snd (coordinates b) = -180 ->
  snd (coordinates b') = 180 ->
  exists d d' : R,
    distance_km a b = Return d /\ distance_km a b' = Return d' /\
    Rabs (d - d') <= 0.001.
Proof.
  intros _ _ Hlat Hb Hb'.
  assert (E : haversine_of a b' = haversine_of a b).
  { apply haversine_of_full_turn; [exact Hlat | rewrite Hb, Hb'; lra]. }
  exists (6371 * (2 * asin (sqrt (haversine_of a b)))).
  exists (6371 * (2 * asin (sqrt (haversine_of a b)))).
  split; [apply distance_km_defined |].
  split; [rewrite distance_km_defined, E; reflexivity |].
  replace (_ - _) with 0 by ring. rewrite Rabs_R0. lra.
Qed.

Lemma distance_km_date_line_witness :
  exists d d' : R,
    distance_km paris date_line_west = Return d /\
    distance_km paris date_line_east = Return d' /\
    Rabs (d - d') <= 0.001.
Proof.
  apply (distance_km_date_line paris date_line_west date_line_east);
    unfold valid_coordinates, paris, date_line_west, date_line_east;
    simpl; lra.
Defined.

Lemma asin_abs_sin (x : R) :
  - (PI / 2) <= x <= PI / 2 -> asin (Rabs (sin x)) = Rabs x.
Proof.
  intros Hx. pose proof PI_RGT_0 as HP.
  destruct (Rle_dec 0 x) as [H0 | H0].
  - rewrite (Rabs_pos_eq x) by exact H0.
    rewrite Rabs_pos_eq by (apply sin_ge_0; lra).
    apply asin_sin. exact Hx.
  - rewrite (Rabs_left x) by lra.
    rewrite <- Rabs_Ropp, <- sin_neg.
    rewrite Rabs_pos_eq by (apply sin_ge_0; lra).
    apply asin_sin. lra.
Qed.

(** In exact arithmetic the distance along a meridian is the radius times
    the angle. *)
Lemma distance_km_meridian_exact (a b : CityInfo) :
  snd (coordinates a) = snd (coordinates b) ->
  -180 <= fst (coordinates b) - fst (coordinates a) <= 180 ->
  distance_km a b =
  Return (6371 * Rabs (radians (fst (coordinates b))
                       - radians (fst (coordinates a)))).
Proof.
  intros Hlon Hlat. rewrite distance_km_defined. do 2 f_equal.
  set (x := (radians (fst (coordinates b)) - radians (fst (coordinates a))) / 2).
  assert (Hx : - (PI / 2) <= x <= PI / 2).
  { unfold x, radians. pose proof PI_RGT_0. split; nra. }
  assert (E : haversine_of a b = Rsqr (sin x)).
  { unfold haversine_of, haversine_a. cbv zeta. rewrite Hlon.
    fold x.
    replace (radians (snd (coordinates b)) - radians (snd (coordinates b)))
      with 0 by ring.
    replace (0 / 2) with 0 by field. rewrite sin_0. unfold Rsqr. simpl. ring. }
  rewrite E, sqrt_Rsqr_abs, asin_abs_sin by exact Hx.
  replace (radians (fst (coordinates b)) - radians (fst (coordinates a)))
    with (2 * x) by (unfold x; field).
  rewrite Rabs_mult, (Rabs_pos_eq 2) by lra. reflexivity.
Qed.

(** X9: along a meridian the distance is the radius times the angle: for
    two records in range of the same longitude, the distance is 6371
    times the difference of latitude in radians, in absolute value, to
    within a metre. *)
Theorem distance_km_along_meridian (a b : CityInfo) :
  valid_coordinates a -> valid_coordinates b ->
  snd (coordinates a) = snd (coordinates b) ->
  exists d : R,
    distance_km a b = Return d /\
    Rabs (d - 6371 * Rabs (radians (fst (coordinates b))
                           - radians (fst (coordinates a)))) <= 0.001.
Proof.
  intros [Va _] [Vb _] Hlon.
  eexists. split.
  - apply distance_km_meridian_exact; [exact Hlon | lra].
  - replace (_ - _) with 0 by ring. rewrite Rabs_R0. lra.
Qed.

Lemma distance_km_along_meridian_witness :
  exists d : R,
    distance_km london south_of_london = Return d /\
    Rabs (d - 6371 * Rabs (radians 49.5074 - radians 51.5074)) <= 0.001.
Proof.
  apply (distance_km_along_meridian london south_of_london);
    unfold valid_coordinates, london, south_of_london; simpl; lra.
Defined.

End DistanceGeometry.

(* ================================================================= *)
(** ** More on the search *)

Section SearchMore.

Lemma append_assoc (a b c : string) : (a ++ b) ++ c = a ++ (b ++ c).
Proof.
  induction a as [| x a IH]; simpl; [reflexivity | rewrite IH; reflexivity].
Qed.

Lemma starts_with_spec (p s : string) :
  starts_with p s = true <-> exists post, s = p ++ post.
Proof.
  revert s. induction p as [| a p IH]; intros s.
  - simpl. split; [intros _; exists s; reflexivity | reflexivity].
  - destruct s as [| b s]; simpl.
    + split; [discriminate | intros [post E]; discriminate E].
    + rewrite andb_true_iff, IH. split.
      * intros [Hab [post ->]]. apply Ascii.eqb_eq in Hab. subst b.
        exists post. reflexivity.
      * intros [post E]. injection E as -> ->.
        split; [apply Ascii.eqb_refl | exists post; reflexivity].
Qed.

Lemma contains_unfold (s sub : string) :
  contains s sub =
  starts_with sub s
  || match s with
     | EmptyString => false
     | String _ r => contains r sub
     end.
Proof. destruct s; reflexivity. Qed.

(** [sub in s] holds exactly when [s] is [sub] with something before and
    something after. *)
Lemma contains_spec (s sub : string) :
  contains s sub = true <-> exists pre post, s = pre ++ sub ++ post.
Proof.
  split.
  - induction s as [| c r IH]; rewrite contains_unfold, orb_true_iff.
    + intros [H | H]; [| discriminate].
      apply starts_with_spec in H. destruct H as [post E].
      exists EmptyString, post. exact E.
    + intros [H | H].
      * apply starts_with_spec in H. destruct H as [post E].
        exists EmptyString, post. exact E.
      * destruct (IH H) as (pre & post & E).
        exists (String c pre), post. simpl. rewrite E. reflexivity.
  - intros (pre & post & E). revert s E.
    induction pre as [| c pre IH]; intros s E; rewrite contains_unfold.
    + apply orb_true_iff. left. apply starts_with_spec.
      exists post. exact E.
    + subst s. simpl append. apply orb_true_iff. right.
      apply IH. reflexivity.
Qed.

Lemma contains_refl (s : string) : contains s s = true.
Proof.
  apply contains_spec. exists EmptyString, EmptyString.
  simpl. clear. induction s as [| c s IH]; simpl; [reflexivity |].
  rewrite <- IH. reflexivity.
Qed.

Lemma contains_empty (s : string) : contains s EmptyString = true.
Proof. rewrite contains_unfold. reflexivity. Qed.

Lemma contains_trans (s mid sub : string) :
  contains s mid = true -> contains mid sub = true -> contains s sub = true.
Proof.
  rewrite !contains_spec. intros (p1 & q1 & ->) (p2 & q2 & ->).
  exists (p1 ++ p2), (q2 ++ q1). rewrite !append_assoc. reflexivity.
Qed.

Lemma lookup_In {A : Type} (key : string) (table : list (string * A)) (v : A) :
  lookup key table = Some v -> In (key, v) table.
Proof.
  induction table as [| [k x] rest IH]; simpl; [discriminate |].
  destruct (String.eqb_spec key k) as [-> | _].
  - intros E. injection E as ->. left. reflexivity.
  - intros E. right. apply IH. exact E.
Qed.

(** X11: an empty query, or one of blanks only, matches every record: the
    search then lists the whole table, eight records. *)
Theorem search_blank_query_lists_all (query : string) :
  strip (lower query) = EmptyString ->
  matching_cities query = CITY_DATABASE /\
  lookup "count" (search_cities_in_database query) = Some (VInt 8).
Proof.
  intros E.
  assert (H : matching_cities query = CITY_DATABASE).
  { unfold matching_cities. rewrite E.
    apply forallb_filter_id. apply forallb_forall.
    intros [key info] _. unfold city_matches.
    rewrite !contains_empty. reflexivity. }
  split; [exact H |].
  unfold search_cities_in_database. cbv zeta. rewrite H. reflexivity.
Qed.

Lemma search_blank_query_lists_all_witness :
  matching_cities "   " = CITY_DATABASE /\
  lookup "count" (search_cities_in_database "   ") = Some (VInt 8).
Proof.
  apply (search_blank_query_lists_all "   "). reflexivity.
Defined.

(** X12: what the lookup finds, the search finds: a name whose normal form
    is a key of the table is a query that matches the record of that key,
    so the search succeeds and lists it. *)
Theorem search_finds_what_lookup_finds (city : string) (city_info : CityInfo) :
  lookup (strip (lower city)) CITY_DATABASE = Some city_info ->
  In (strip (lower city), city_info) (matching_cities city) /\
  status (search_cities_in_database city) = Some (VStr "success") /\
  status (get_city_info city) = Some (VStr "success").
Proof.
  intros Hc.
  assert (Hin : In (strip (lower city), city_info) (matching_cities city)).
  { unfold matching_cities. apply filter_In.
    split; [apply lookup_In; exact Hc |].
    unfold city_matches. rewrite contains_refl.
    rewrite !orb_true_r. reflexivity. }
  split; [exact Hin |]. split.
  - unfold search_cities_in_database. cbv zeta.
    destruct (matching_cities city); [destruct Hin | reflexivity].
  - unfold get_city_info. cbv zeta. rewrite Hc. reflexivity.
Qed.

Lemma search_finds_what_lookup_finds_witness :
  In (strip (lower " Tokyo "), tokyo) (matching_cities " Tokyo ") /\
  status (search_cities_in_database " Tokyo ") = Some (VStr "success") /\
  status (get_city_info " Tokyo ") = Some (VStr "success").
Proof.
  apply (search_finds_what_lookup_finds " Tokyo " tokyo). reflexivity.
Defined.

(** X13: a longer query finds no more than a shorter one it contains: when
    the normal form of [query1] occurs in the normal form of [query2],
    every record that [query2] matches is matched by [query1] as well. *)
Theorem search_narrowing (query1 query2 : string) :
  contains (strip (lower query2)) (strip (lower query1)) = true ->
  incl (matching_cities query2) (matching_cities query1) /\
  (List.length (matching_cities query2)
     <= List.length (matching_cities query1))%nat.
Proof.
  intros H.
  assert (Himp : forall entry,
             city_matches (strip (lower query2)) entry = true ->
             city_matches (strip (lower query1)) entry = true).
  { intros [key info]. unfold city_matches.
    rewrite !orb_true_iff.
    intros [[Hn | Hc] | Hk];
      [left; left | left; right | right];
      eapply contains_trans; eassumption. }
  split.
  - intros entry Hin. unfold matching_cities in *.
    apply filter_In in Hin. destruct Hin as [Hin Hm].
    apply filter_In. split; [exact Hin | apply Himp; exact Hm].
  - unfold matching_cities.
    induction CITY_DATABASE as [| e l IH]; simpl; [lia |].
    destruct (city_matches (strip (lower query2)) e) eqn:E2.
    + rewrite (Himp e E2). simpl. lia.
    + destruct (city_matches (strip (lower query1)) e); simpl; lia.
Qed.

Lemma search_narrowing_witness :
  incl (matching_cities "United K") (matching_cities " UNITED ") /\
  (List.length (matching_cities "United K")
     <= List.length (matching_cities " UNITED "))%nat.
Proof.
  apply (search_narrowing " UNITED " "United K"). reflexivity.
Defined.

End SearchMore.

(* ================================================================= *)
(** ** More on [compare_cities] *)

Section CompareMore.

Lemma weather_key_normal (key : string) (w : Weather) :
  lookup key WEATHER_DATA = Some w -> strip (lower key) = key.
Proof.
  intros H. apply lookup_In in H. simpl in H.
  repeat (destruct H as [H | H]; [injection H as <- _; reflexivity |]).
  destruct H.
Qed.

Lemma city_key_normal (key : string) (info : CityInfo) :
  lookup key CITY_DATABASE = Some info -> strip (lower key) = key.
Proof.
  intros H. apply lookup_In in H. simpl in H.
  repeat (destruct H as [H | H]; [injection H as <- _; reflexivity |]).
  destruct H.
Qed.

(** A lower-cased name that is a key is its own normal form. *)
Lemma lower_key_normal {A : Type} (table : list (string * A)) (city : string) (v : A) :
  (forall key x, lookup key table = Some x -> strip (lower key) = key) ->
  lookup (lower city) table = Some v ->
  strip (lower city) = lower city.
Proof.
  intros Hn Hl. pose proof (Hn _ _ Hl) as E.
  rewrite lower_idem in E. exact E.
Qed.

Lemma compare_weather_missing (rt : Runtime) (city1 city2 : string) (n : nat) :
  member (strip (lower city1)) WEATHER_DATA = false \/
  member (strip (lower city2)) WEATHER_DATA = false ->
  compare_cities rt city1 city2 "weather" n =
  (Return [ ("status", VStr "error");
            ("error_message",
             VStr "Weather data missing for one or both cities. I can try a web search for current weather if you'd like.") ],
   n).
Proof.
  intros H. unfold compare_cities.
  replace (String.eqb "weather" "weather") with true by reflexivity.
  cbv zeta. rewrite !status_is_error_get_weather.
  destruct H as [H | H]; rewrite H; cbn [negb orb];
    rewrite ?orb_true_r; reflexivity.
Qed.

Lemma compare_weather_key_error_2 (rt : Runtime) (city1 city2 : string)
    (w1 : Weather) (n : nat) :
  lookup (lower city1) WEATHER_DATA = Some w1 ->
  member (strip (lower city2)) WEATHER_DATA = true ->
  member (lower city2) WEATHER_DATA = false ->
  compare_cities rt city1 city2 "weather" n = (Raise (KeyError (lower city2)), n).
Proof.
  intros H1 H2 H3.
  pose proof (lower_key_normal _ _ _ weather_key_normal H1) as E1.
  unfold compare_cities.
  replace (String.eqb "weather" "weather") with true by reflexivity.
  cbv zeta. rewrite !status_is_error_get_weather, H2.
  unfold member at 1. rewrite E1, H1. cbn [negb orb].
  apply member_false_lookup in H3.
  unfold bind, lift, getitem. rewrite H1, H3. reflexivity.
Qed.

(** The report of lines 276-284. *)
Lemma compare_weather_success (rt : Runtime) (city1 city2 : string)
    (w1 w2 : Weather) (n : nat) :
  lookup (lower city1) WEATHER_DATA = Some w1 ->
  lookup (lower city2) WEATHER_DATA = Some w2 ->
  compare_cities rt city1 city2 "weather" n =
  (Return
     [ ("status", VStr "success");
       ("report",
        VText
          [ Txt "🌍 Weather Comparison: "; Txt (title city1); Txt " vs ";
            Txt (title city2); Txt (nl ++ nl);
            Txt (title city1); Txt ": "; Int (temperature_c w1); Txt "°C, ";
            Txt (condition w1); Txt nl;
            Txt (title city2); Txt ": "; Int (temperature_c w2); Txt "°C, ";
            Txt (condition w2); Txt (nl ++ nl);
            Txt "🌡️ Temperature difference: ";
            Fixed 1 (IZR (Z.abs (temperature_c w1 - temperature_c w2)));
            Txt "°C ";
            Txt "(";
            Txt (if (0 <? temperature_c w1 - temperature_c w2)%Z
                 then "warmer" else "cooler");
            Txt " in ";
            Txt (if (0 <? temperature_c w1 - temperature_c w2)%Z
                 then title city1 else title city2);
            Txt (")" ++ nl);
            Txt "💧 Humidity difference: ";
            Int (Z.abs (humidity w1 - humidity w2)); Txt "% ";
            Txt "(";
            Txt (if (0 <? humidity w1 - humidity w2)%Z
                 then "higher" else "lower");
            Txt " in ";
            Txt (if (0 <? humidity w1 - humidity w2)%Z
                 then title city1 else title city2);
            Txt ")" ]) ],
   n).
Proof.
  intros H1 H2.
  pose proof (lower_key_normal _ _ _ weather_key_normal H1) as E1.
  pose proof (lower_key_normal _ _ _ weather_key_normal H2) as E2.
  unfold compare_cities.
  replace (String.eqb "weather" "weather") with true by reflexivity.
  cbv zeta. rewrite !status_is_error_get_weather.
  unfold member. rewrite E1, E2, H1, H2. cbn [negb orb].
  unfold bind, lift, getitem. rewrite H1, H2. reflexivity.
Qed.

(** X14: a comparison type other than "weather" and "time" always gives
    an error result, "info" included, though the docstring names it. *)
Theorem compare_other_type_is_error (rt : Runtime)
    (city1 city2 comparison_type : string) (n : nat) :
  comparison_type <> "weather" -> comparison_type <> "time" ->
  exists message : value,
    compare_cities rt city1 city2 comparison_type n =
    (Return [ ("status", VStr "error"); ("error_message", message) ], n).
Proof.
  intros Hw Ht. unfold compare_cities.
  apply String.eqb_neq in Hw. apply String.eqb_neq in Ht.
  rewrite Hw, Ht. cbv zeta.
  destruct (status_is_error (get_city_info city1)
            || status_is_error (get_city_info city2));
    eexists; reflexivity.
Qed.

Lemma compare_other_type_is_error_witness :
  exists message : value,
    compare_cities winter "London" "Paris" "info" 0 =
    (Return [ ("status", VStr "error"); ("error_message", message) ], 0%nat).
Proof.
  apply (compare_other_type_is_error winter "London" "Paris" "info" 0);
    discriminate.
Defined.

(** X15: the four ways a comparison of the weather ends, for two names of
    ASCII characters. A name unknown
    after trimming gives the error result; two known names give a report
    when both, lower-cased only, are keys of the table, and otherwise the
    first of them that is not, having blanks around it, raises
    [KeyError]. *)
Theorem compare_weather_outcomes (rt : Runtime) (city1 city2 : string) (n : nat) :
  is_ascii city1 = true -> is_ascii city2 = true ->
  ((member (strip (lower city1)) WEATHER_DATA = false \/
    member (strip (lower city2)) WEATHER_DATA = false) /\
   compare_cities rt city1 city2 "weather" n =
   (Return [ ("status", VStr "error");
             ("error_message",
              VStr "Weather data missing for one or both cities. I can try a web search for current weather if you'd like.") ],
    n))
  \/
  (member (strip (lower city1)) WEATHER_DATA = true /\
   member (strip (lower city2)) WEATHER_DATA = true /\
   member (lower city1) WEATHER_DATA = false /\
   strip (lower city1) <> lower city1 /\
   compare_cities rt city1 city2 "weather" n = (Raise (KeyError (lower city1)), n))
  \/
  (member (lower city1) WEATHER_DATA = true /\
   member (strip (lower city2)) WEATHER_DATA = true /\
   member (lower city2) WEATHER_DATA = false /\
   strip (lower city2) <> lower city2 /\
   compare_cities rt city1 city2 "weather" n = (Raise (KeyError (lower city2)), n))
  \/
  (member (lower city1) WEATHER_DATA = true /\
   member (lower city2) WEATHER_DATA = true /\
   exists report : text,
     compare_cities rt city1 city2 "weather" n =
     (Return [ ("status", VStr "success"); ("report", VText report) ], n)).
Proof.
  intros _ _.
  destruct (member (strip (lower city1)) WEATHER_DATA) eqn:S1;
    [| left; split; [left; reflexivity |];
       apply compare_weather_missing; left; exact S1].
  destruct (member (strip (lower city2)) WEATHER_DATA) eqn:S2;
    [| left; split; [right; reflexivity |];
       apply compare_weather_missing; right; exact S2].
  right.
  destruct (lookup (lower city1) WEATHER_DATA) as [w1 |] eqn:L1.
  - right.
    assert (M1 : member (lower city1) WEATHER_DATA = true)
      by (unfold member; rewrite L1; reflexivity).
    destruct (lookup (lower city2) WEATHER_DATA) as [w2 |] eqn:L2.
    + right. split; [exact M1 |].
      split; [unfold member; rewrite L2; reflexivity |].
      eexists. apply (compare_weather_success rt city1 city2 w1 w2 n L1 L2).
    + left. split; [exact M1 |]. split; [reflexivity |].
      assert (M2 : member (lower city2) WEATHER_DATA = false)
        by (unfold member; rewrite L2; reflexivity).
      split; [exact M2 |]. split.
      * intros E. rewrite E in S2. congruence.
      * apply (compare_weather_key_error_2 rt city1 city2 w1 n L1 S2 M2).
  - left. split; [reflexivity |]. split; [reflexivity |].
    assert (M1 : member (lower city1) WEATHER_DATA = false)
      by (unfold member; rewrite L1; reflexivity).
    split; [exact M1 |]. split.
    + intros E. rewrite E in S1. congruence.
    + apply compare_weather_key_error; assumption.
Qed.

Lemma compare_weather_outcomes_witness :
  exists report : text,
    compare_cities winter "London" "PARIS" "weather" 0 =
    (Return [ ("status", VStr "success"); ("report", VText report) ], 0%nat).
Proof.
  destruct (compare_weather_outcomes winter "London" "PARIS" 0 eq_refl eq_refl)
    as [[[H | H] _] | [(_ & _ & H & _) | [(_ & _ & H & _) | (_ & _ & E)]]];
    try discriminate H.
  exact E.
Defined.

(** X16: the second error message of the weather branch (lines 265-268)
    is never returned: whenever [get_weather] reports an error, the check
    of line 260 holds as well. *)
Theorem compare_weather_second_message_is_dead
    (rt : Runtime) (city1 city2 : string) (n : nat) :
  fst (compare_cities rt city1 city2 "weather" n) <>
  Return [ ("status", VStr "error");
           ("error_message",
            VStr "Cannot compare - one or both cities have no weather data") ].
Proof.
  destruct (member (strip (lower city1)) WEATHER_DATA) eqn:S1;
    [| rewrite compare_weather_missing by (left; exact S1); discriminate].
  destruct (member (strip (lower city2)) WEATHER_DATA) eqn:S2;
    [| rewrite compare_weather_missing by (right; exact S2); discriminate].
  destruct (lookup (lower city1) WEATHER_DATA) as [w1 |] eqn:L1.
  - destruct (lookup (lower city2) WEATHER_DATA) as [w2 |] eqn:L2.
    + rewrite (compare_weather_success rt city1 city2 w1 w2 n L1 L2).
      discriminate.
    + rewrite (compare_weather_key_error_2 rt city1 city2 w1 n L1 S2)
        by (unfold member; rewrite L2; reflexivity).
      discriminate.
  - rewrite compare_weather_key_error
      by (try assumption; unfold member; rewrite L1; reflexivity).
    discriminate.
Qed.

End CompareMore.

(* ================================================================= *)
(** ** More on the time tools *)

Section TimeMore.

(** X17: the three ways [get_current_time] ends for a name of ASCII
    characters, none of them an exception: an unknown city and an unknown zone each give an error
    result without reading the clock, the second one from the handler of
    line 204; otherwise the clock is read once and the result carries the
    time in the chosen format. *)
Theorem get_current_time_outcome (rt : Runtime) (city format_type : string) (n : nat) :
  is_ascii city = true ->
  (lookup (strip (lower city)) CITY_DATABASE = None /\
   get_current_time rt city format_type n =
   (Return [ ("status", VStr "error");
             ("error_message",
              VText [ Txt "Time zone data for '"; Txt city;
                      Txt "' not available. Try: ";
                      Txt "New York, London, Tokyo, Lagos, Paris, Dubai, Sydney, Mumbai";
                      Txt ". Or I can search the web for it." ]) ],
    n))
  \/
  (exists city_info : CityInfo,
      lookup (strip (lower city)) CITY_DATABASE = Some city_info /\
      tzdata rt (timezone city_info) = None /\
      get_current_time rt city format_type n =
      (Return [ ("status", VStr "error");
                ("error_message",
                 VText [ Txt "Error getting time for "; Txt city; Txt ": ";
                         ExnStr (ZoneInfoNotFoundError (timezone city_info)) ]) ],
       n))
  \/
  (exists (city_info : CityInfo) (offset : Z -> Z) (formatted_time : text),
      lookup (strip (lower city)) CITY_DATABASE = Some city_info /\
      tzdata rt (timezone city_info) = Some offset /\
      get_current_time rt city format_type n =
      (Return
         [ ("status", VStr "success");
           ("report",
            VText (app [ Txt "🕐 Current time in "; Txt (title city); Txt ": " ]
                       formatted_time));
           ("timestamp",
            VText [ Isoformat (mkDatetime (clock rt n) (timezone city_info)
                                          (offset (clock rt n))) ]);
           ("timezone", VStr (timezone city_info));
           ("utc_offset",
            VText [ Strftime "%z" (mkDatetime (clock rt n) (timezone city_info)
                                              (offset (clock rt n))) ]) ],
       S n)).
Proof.
  intros _.
  destruct (lookup (strip (lower city)) CITY_DATABASE) as [info |] eqn:Hc.
  - right. destruct (tzdata rt (timezone info)) as [offset |] eqn:Hz.
    + right. exists info, offset. eexists.
      split; [reflexivity |]. split; [exact Hz |].
      rewrite (get_current_time_success _ _ _ _ _ _ Hc Hz). reflexivity.
    + left. exists info. split; [reflexivity |]. split; [exact Hz |].
      apply get_current_time_unknown_zone; assumption.
  - left. split; [reflexivity |].
    unfold get_current_time, member. rewrite Hc. reflexivity.
Qed.

Lemma get_current_time_outcome_witness :
  get_current_time no_tzdata " Tokyo " "iso" 0 =
  (Return [ ("status", VStr "error");
            ("error_message",
             VText [ Txt "Error getting time for "; Txt " Tokyo "; Txt ": ";
                     ExnStr (ZoneInfoNotFoundError "Asia/Tokyo") ]) ],
   0%nat).
Proof.
  destruct (get_current_time_outcome no_tzdata " Tokyo " "iso" 0 eq_refl)
    as [[H _] | [(info & Hc & _ & E) | (info & offset & text & _ & H & _)]].
  - discriminate H.
  - injection Hc as <-. exact E.
  - discriminate H.
Defined.

(** [get_current_time] returns, and its status is "error" exactly when
    the name is unknown or its zone does not resolve. *)
Lemma get_current_time_flag (rt : Runtime) (city format_type : string) (n : nat) :
  exists result n',
    get_current_time rt city format_type n = (Return result, n') /\
    status_is_error result = negb (zone_resolves rt city) /\
    (zone_resolves rt city = true -> n' = S n).
Proof.
  unfold zone_resolves.
  destruct (lookup (strip (lower city)) CITY_DATABASE) as [info |] eqn:Hc.
  - destruct (tzdata rt (timezone info)) as [offset |] eqn:Hz.
    + rewrite (get_current_time_success _ _ _ _ _ _ Hc Hz).
      eexists. eexists. split; [reflexivity |]. split; reflexivity.
    + rewrite (get_current_time_unknown_zone _ _ _ _ _ Hc Hz).
      eexists. eexists. split; [reflexivity |]. split; [reflexivity |].
      discriminate.
  - unfold get_current_time, member. rewrite Hc. simpl. unfold ret.
    eexists. eexists. split; [reflexivity |]. split; [reflexivity |].
    discriminate.
Qed.

Lemma zone_resolves_member (rt : Runtime) (city : string) :
  zone_resolves rt city = true ->
  member (strip (lower city)) CITY_DATABASE = true.
Proof.
  unfold zone_resolves, member.
  destruct (lookup (strip (lower city)) CITY_DATABASE); [reflexivity | discriminate].
Qed.

(** The error branch of the comparison of times (lines 292-301). *)
Lemma compare_time_errors (rt : Runtime) (city1 city2 : string) (n : nat) :
  zone_resolves rt city1 = false \/ zone_resolves rt city2 = false ->
  fst (compare_cities rt city1 city2 "time" n) =
  Return
    (if negb (member (strip (lower city1)) CITY_DATABASE)
        || negb (member (strip (lower city2)) CITY_DATABASE)
     then
       [ ("status", VStr "error");
         ("error_message",
          VStr "Timezone data unavailable for one or both cities in my database. I can search the web for current times.") ]
     else
       [ ("status", VStr "error");
         ("error_message",
          VStr "Cannot compare - timezone data unavailable for one or both cities") ]).
Proof.
  intros H. unfold compare_cities.
  replace (String.eqb "time" "weather") with false by reflexivity.
  replace (String.eqb "time" "time") with true by reflexivity.
  cbv iota.
  destruct (get_current_time_flag rt city1 "standard" n)
    as (r1 & n1 & E1 & F1 & _).
  destruct (get_current_time_flag rt city2 "standard" n1)
    as (r2 & n2 & E2 & F2 & _).
  unfold bind at 1. rewrite E1. cbv beta iota zeta.
  unfold bind at 1. rewrite E2. cbv beta iota zeta.
  rewrite F1, F2.
  replace (negb (zone_resolves rt city1) || negb (zone_resolves rt city2))
    with true
    by (destruct H as [H | H]; rewrite H; cbn [negb orb];
        rewrite ?orb_true_r; reflexivity).
  cbv iota.
  destruct (negb (member (strip (lower city1)) CITY_DATABASE)
            || negb (member (strip (lower city2)) CITY_DATABASE));
    reflexivity.
Qed.

(** The steps after the check, when both zones resolve (lines 304-307). *)
Lemma compare_time_continues (rt : Runtime) (city1 city2 : string) (n : nat) :
  zone_resolves rt city1 = true -> zone_resolves rt city2 = true ->
  (lookup (lower city1) CITY_DATABASE = None ->
   compare_cities rt city1 city2 "time" n
   = (Raise (KeyError (lower city1)), S (S n))) /\
  (forall info1, lookup (lower city1) CITY_DATABASE = Some info1 ->
   lookup (lower city2) CITY_DATABASE = None ->
   compare_cities rt city1 city2 "time" n
   = (Raise (KeyError (lower city2)), S (S n))) /\
  (forall info1 info2,
   lookup (lower city1) CITY_DATABASE = Some info1 ->
   lookup (lower city2) CITY_DATABASE = Some info2 ->
   exists report,
     compare_cities rt city1 city2 "time" n
     = (Return [ ("status", VStr "success"); ("report", VText report) ],
        S (S (S (S n))))).
Proof.
  intros Z1 Z2.
  assert (Hcommon : forall k : M dict,
    compare_cities rt city1 city2 "time" n =
    (info1 <- lift (getitem CITY_DATABASE (lower city1)) ;;
     tz1 <- ZoneInfo rt (timezone info1) ;;
     info2 <- lift (getitem CITY_DATABASE (lower city2)) ;;
     tz2 <- ZoneInfo rt (timezone info2) ;;
     now1 <- now rt tz1 ;;
     now2 <- now rt tz2 ;;
     let diff := offset_hours now1 now2 in
     ret [ ("status", VStr "success");
           ("report",
            VText
              [ Txt "🕐 Time Comparison: "; Txt (title city1); Txt " vs ";
                Txt (title city2); Txt (nl ++ nl);
                Txt (title city1); Txt ": "; Strftime "%I:%M %p %Z" now1;
                Txt nl;
                Txt (title city2); Txt ": "; Strftime "%I:%M %p %Z" now2;
                Txt (nl ++ nl);
                Txt "⏰ Time difference: "; Fixed 0 (Rabs diff);
                Txt " hours ";
                Txt "(";
                Txt (if Rlt_dec 0 diff then title city1 else title city2);
                Txt " is ahead)" ]) ]) (S (S n))).
  { intros _. unfold compare_cities.
    replace (String.eqb "time" "weather") with false by reflexivity.
    replace (String.eqb "time" "time") with true by reflexivity.
    cbv iota.
    destruct (get_current_time_flag rt city1 "standard" n)
      as (r1 & n1 & E1 & F1 & N1).
    destruct (get_current_time_flag rt city2 "standard" n1)
      as (r2 & n2 & E2 & F2 & N2).
    rewrite (N1 Z1) in *. rewrite (N2 Z2) in *.
    unfold bind at 1. rewrite E1. cbv beta iota zeta.
    unfold bind at 1. rewrite E2. cbv beta iota zeta.
    rewrite F1, F2, Z1, Z2. cbn [negb orb]. cbv iota. reflexivity. }
  specialize (Hcommon (ret [])).
  unfold zone_resolves in Z1, Z2.
  split; [| split].
  - intros L1. rewrite Hcommon. unfold bind, lift, getitem. rewrite L1.
    reflexivity.
  - intros info1 L1 L2. rewrite Hcommon.
    pose proof (lower_key_normal _ _ _ city_key_normal L1) as N1.
    rewrite N1, L1 in Z1.
    destruct (tzdata rt (timezone info1)) as [o1 |] eqn:T1; [| discriminate].
    unfold bind, lift, getitem, ZoneInfo, ret. rewrite L1, T1, L2.
    reflexivity.
  - intros info1 info2 L1 L2. rewrite Hcommon.
    pose proof (lower_key_normal _ _ _ city_key_normal L1) as N1.
    pose proof (lower_key_normal _ _ _ city_key_normal L2) as N2.
    rewrite N1, L1 in Z1. rewrite N2, L2 in Z2.
    destruct (tzdata rt (timezone info1)) as [o1 |] eqn:T1; [| discriminate].
    destruct (tzdata rt (timezone info2)) as [o2 |] eqn:T2; [| discriminate].
    unfold bind, lift, getitem, ZoneInfo, now, ret. rewrite L1, T1, L2, T2.
    eexists. reflexivity.
Qed.

(** X18: the five ways a comparison of times ends, for two names of ASCII
    characters. An unknown name gives
    the first error result; two known names of which one has a zone the
    runtime does not resolve give the second one; when both zones resolve,
    lines 304-305 index the table with the names lower-cased only, so the
    first name with blanks around it raises [KeyError] after the two
    readings of the clock made by [get_current_time]; otherwise the report
    is returned, after four readings. *)
Theorem compare_time_outcomes (rt : Runtime) (city1 city2 : string) (n : nat) :
  is_ascii city1 = true -> is_ascii city2 = true ->
  ((member (strip (lower city1)) CITY_DATABASE = false \/
    member (strip (lower city2)) CITY_DATABASE = false) /\
   fst (compare_cities rt city1 city2 "time" n) =
   Return [ ("status", VStr "error");
            ("error_message",
             VStr "Timezone data unavailable for one or both cities in my database. I can search the web for current times.") ])
  \/
  (member (strip (lower city1)) CITY_DATABASE = true /\
   member (strip (lower city2)) CITY_DATABASE = true /\
   (zone_resolves rt city1 = false \/ zone_resolves rt city2 = false) /\
   fst (compare_cities rt city1 city2 "time" n) =
   Return [ ("status", VStr "error");
            ("error_message",
             VStr "Cannot compare - timezone data unavailable for one or both cities") ])
  \/
  (zone_resolves rt city1 = true /\ zone_resolves rt city2 = true /\
   member (lower city1) CITY_DATABASE = false /\
   compare_cities rt city1 city2 "time" n
   = (Raise (KeyError (lower city1)), S (S n)))
  \/
  (zone_resolves rt city1 = true /\ zone_resolves rt city2 = true /\
   member (lower city1) CITY_DATABASE = true /\
   member (lower city2) CITY_DATABASE = false /\
   compare_cities rt city1 city2 "time" n
   = (Raise (KeyError (lower city2)), S (S n)))
  \/
  (zone_resolves rt city1 = true /\ zone_resolves rt city2 = true /\
   member (lower city1) CITY_DATABASE = true /\
   member (lower city2) CITY_DATABASE = true /\
   exists report : text,
     compare_cities rt city1 city2 "time" n
     = (Return [ ("status", VStr "success"); ("report", VText report) ],
        S (S (S (S n))))).
Proof.
  intros _ _.
  destruct (zone_resolves rt city1) eqn:Z1.
  - destruct (zone_resolves rt city2) eqn:Z2.
    + right. right.
      destruct (compare_time_continues rt city1 city2 n Z1 Z2) as (K1 & K2 & K3).
      destruct (lookup (lower city1) CITY_DATABASE) as [info1 |] eqn:L1.
      * right.
        assert (M1 : member (lower city1) CITY_DATABASE = true)
          by (unfold member; rewrite L1; reflexivity).
        destruct (lookup (lower city2) CITY_DATABASE) as [info2 |] eqn:L2.
        -- right. do 2 (split; [first [assumption | reflexivity] |]). split; [exact M1 |].
           split; [unfold member; rewrite L2; reflexivity |].
           apply (K3 info1 info2); reflexivity.
        -- left. do 2 (split; [first [assumption | reflexivity] |]). split; [exact M1 |].
           split; [unfold member; rewrite L2; reflexivity |].
           apply (K2 info1); reflexivity.
      * left. do 2 (split; [first [assumption | reflexivity] |]).
        split; [unfold member; rewrite L1; reflexivity |].
        apply K1. reflexivity.
    + pose proof (compare_time_errors rt city1 city2 n (or_intror Z2)) as E.
      pose proof (zone_resolves_member rt city1 Z1) as M1.
      rewrite M1 in E. cbn [negb orb] in E. cbv iota in E.
      destruct (member (strip (lower city2)) CITY_DATABASE) eqn:M2.
      * right. left. do 2 (split; [first [assumption | reflexivity] |]).
        split; [right; reflexivity | exact E].
      * left. split; [right; reflexivity | exact E].
  - pose proof (compare_time_errors rt city1 city2 n (or_introl Z1)) as E.
    destruct (member (strip (lower city1)) CITY_DATABASE) eqn:M1.
    + destruct (member (strip (lower city2)) CITY_DATABASE) eqn:M2.
      * right. left. do 2 (split; [first [assumption | reflexivity] |]).
        split; [left; reflexivity | exact E].
      * left. split; [right; reflexivity | exact E].
    + left. split; [left; reflexivity | exact E].
Qed.

Lemma compare_time_outcomes_witness :
  compare_cities winter " london " "paris" "time" 0
  = (Raise (KeyError " london "), 2%nat).
Proof.
  destruct (compare_time_outcomes winter " london " "paris" 0 eq_refl eq_refl)
    as [[[H | H] _]
       | [(_ & _ & [H | H] & _)
         | [(_ & _ & _ & E)
           | [(_ & _ & H & _) | (_ & _ & H & _)]]]];
    try discriminate H.
  exact E.
Defined.

End TimeMore.

(* ================================================================= *)
(** ** More on [get_travel_info] *)

Section TravelMore.

(** X19: for two names of ASCII characters, the only result
    [get_travel_info] ever returns is the error for a name that is not in
    the table, which it returns without reading the
    clock; for two names of the table the call ends in an exception. No
    call returns a "success" result. *)
Theorem get_travel_info_outcomes (rt : Runtime) (origin destination : string) (n : nat) :
  is_ascii origin = true -> is_ascii destination = true ->
  ((member (strip (lower origin)) CITY_DATABASE = false \/
    member (strip (lower destination)) CITY_DATABASE = false) /\
   get_travel_info rt origin destination n =
   (Return [ ("status", VStr "error");
             ("error_message",
              VStr "Travel info requires both cities to be in our database. I can try a web search for information about these cities.") ],
    n))
  \/
  (member (strip (lower origin)) CITY_DATABASE = true /\
   member (strip (lower destination)) CITY_DATABASE = true /\
   exists e : exn, fst (get_travel_info rt origin destination n) = Raise e).
Proof.
  intros _ _.
  destruct (lookup (strip (lower origin)) CITY_DATABASE) as [oi |] eqn:Ho.
  - destruct (lookup (strip (lower destination)) CITY_DATABASE) as [di |] eqn:Hd.
    + right.
      split; [unfold member; rewrite Ho; reflexivity |].
      split; [unfold member; rewrite Hd; reflexivity |].
      rewrite (get_travel_info_found _ _ _ _ _ _ Ho Hd).
      destruct (distance_km oi di) as [d | e]; [| simpl; eauto].
      destruct (time_difference rt oi di n) as [[t | e] n']; simpl; eauto.
    + left. split; [right; unfold member; rewrite Hd; reflexivity |].
      unfold get_travel_info, member. cbv zeta. rewrite Hd.
      cbn [negb orb]. rewrite orb_true_r. reflexivity.
  - left. split; [left; unfold member; rewrite Ho; reflexivity |].
    unfold get_travel_info, member. cbv zeta. rewrite Ho. reflexivity.
Qed.

Lemma get_travel_info_outcomes_witness :
  get_travel_info winter "Atlantis" "Paris" 0 =
  (Return [ ("status", VStr "error");
            ("error_message",
             VStr "Travel info requires both cities to be in our database. I can try a web search for information about these cities.") ],
   0%nat).
Proof.
  destruct (get_travel_info_outcomes winter "Atlantis" "Paris" 0
              eq_refl eq_refl)
    as [[_ E] | (H & _)].
  - exact E.
  - discriminate H.
Defined.



End TravelMore.

(* ================================================================= *)
(** ** More on [get_weather] and [get_city_info] *)

Section TablesMore.

(** X20: every city that has weather has a record: when [get_weather]
    succeeds for a name, so does [get_city_info], and the name passes the
    city check of [get_current_time] and of [get_travel_info]. *)
Theorem weather_implies_city_info (city : string) (detailed : bool) :
  status (get_weather city detailed) = Some (VStr "success") ->
  member (strip (lower city)) CITY_DATABASE = true /\
  status (get_city_info city) = Some (VStr "success").
Proof.
  unfold get_weather. cbv zeta.
  destruct (lookup (strip (lower city)) WEATHER_DATA) as [w |] eqn:Hw;
    [intros _ | discriminate].
  assert (Hm : member (strip (lower city)) CITY_DATABASE = true).
  { apply lookup_In in Hw. simpl in Hw.
    repeat (destruct Hw as [Hw | Hw];
            [injection Hw as <- _; reflexivity |]).
    destruct Hw. }
  split; [exact Hm |].
  unfold get_city_info. cbv zeta. unfold member in Hm.
  destruct (lookup (strip (lower city)) CITY_DATABASE);
    [reflexivity | discriminate].
Qed.

Lemma weather_implies_city_info_witness :
  member (strip (lower " LAGOS ")) CITY_DATABASE = true /\
  status (get_city_info " LAGOS ") = Some (VStr "success").
Proof.
  apply (weather_implies_city_info " LAGOS " true). reflexivity.
Defined.

(** X21: what [detailed] changes in a weather report: for a city of the
    table it inserts the four lines of pressure, visibility, UV index and
    air quality between the basic report and the alerts, which both
    reports end with, and it fills ["raw_data"], which is [None]
    otherwise. *)
Theorem get_weather_detailed_adds (city : string) (weather : Weather) :
  lookup (strip (lower city)) WEATHER_DATA = Some weather ->
  exists basic alert_text : text,
    get_weather city false =
      [ ("status", VStr "success");
        ("report", VText (app basic alert_text));
        ("raw_data", VNone) ] /\
    get_weather city true =
      [ ("status", VStr "success");
        ("report",
         VText (app basic
                 (app [ Txt (nl ++ "📊 Pressure: "); Float (pressure weather);
                        Txt (" hPa" ++ nl);
                        Txt "👁️ Visibility: "; Int (visibility weather);
                        Txt (" km" ++ nl);
                        Txt "☀️ UV Index: "; Int (uv_index weather); Txt nl;
                        Txt "🏭 Air Quality: "; Txt (air_quality weather) ]
                      alert_text)));
        ("raw_data", Weather_dict weather) ] /\
    (alerts weather = [] <-> alert_text = []).
Proof.
  intros Hw. unfold get_weather. cbv zeta. rewrite Hw.
  destruct (alerts weather) as [| a l] eqn:Ea.
  - eexists. exists [].
    split; [rewrite app_nil_r; reflexivity |].
    split; [rewrite app_nil_r; reflexivity |]. tauto.
  - eexists.
    exists (app [ Txt (nl ++ nl ++ "⚠️ Weather Alerts:") ] (alert_lines (a :: l))).
    split; [rewrite app_assoc; reflexivity |].
    split; [rewrite !app_assoc; reflexivity |].
    split; discriminate.
Qed.

Lemma get_weather_detailed_adds_witness :
  exists basic alert_text : text,
    get_weather "Lagos" false =
      [ ("status", VStr "success");
        ("report", VText (app basic alert_text));
        ("raw_data", VNone) ] /\
    get_weather "Lagos" true =
      [ ("status", VStr "success");
        ("report",
         VText (app basic
                 (app [ Txt (nl ++ "📊 Pressure: "); Float 1009.8%R;
                        Txt (" hPa" ++ nl);
                        Txt "👁️ Visibility: "; Int 5; Txt (" km" ++ nl);
                        Txt "☀️ UV Index: "; Int 4; Txt nl;
                        Txt "🏭 Air Quality: "; Txt "Moderate" ]
                      alert_text)));
        ("raw_data",
         Weather_dict
           (mkWeather "thunderstorms" 26 79 94 5 "W" 1009.8%R 5 4 "Moderate"
              28 83
              [ mkAlert "Thunderstorm" "moderate"
                        "Scattered thunderstorms expected"
                        "2025-06-03T20:00:00" ])) ] /\
    (alerts
       (mkWeather "thunderstorms" 26 79 94 5 "W" 1009.8%R 5 4 "Moderate"
          28 83
          [ mkAlert "Thunderstorm" "moderate"
                    "Scattered thunderstorms expected"
                    "2025-06-03T20:00:00" ]) = [] <-> alert_text = []).
Proof.
  exact (get_weather_detailed_adds "Lagos"
           (mkWeather "thunderstorms" 26 79 94 5 "W" 1009.8%R 5 4 "Moderate"
              28 83
              [ mkAlert "Thunderstorm" "moderate"
                        "Scattered thunderstorms expected"
                        "2025-06-03T20:00:00" ])
           eq_refl).
Defined.

(** X22: every record of the table can be read back: for each entry
    [(key, city_info)] of [CITY_DATABASE] and each name whose normal form
    is [key], [get_city_info] succeeds and its ["city_data"] is that
    record. *)
Theorem get_city_info_reads_back (key city : string) (city_info : CityInfo) :
  In (key, city_info) CITY_DATABASE ->
  strip (lower city) = key ->
  status (get_city_info city) = Some (VStr "success") /\
  lookup "city_data" (get_city_info city) = Some (CityInfo_dict city_info).
Proof.
  intros Hin E.
  assert (Hl : lookup key CITY_DATABASE = Some city_info).
  { simpl in Hin.
    repeat (destruct Hin as [Hin | Hin];
            [injection Hin as <- <-; reflexivity |]).
    destruct Hin. }
  unfold get_city_info. cbv zeta. rewrite E, Hl. split; reflexivity.
Qed.

Lemma get_city_info_reads_back_witness :
  status (get_city_info "  TOKYO ") = Some (VStr "success") /\
  lookup "city_data" (get_city_info "  TOKYO ") = Some (CityInfo_dict tokyo).
Proof.
  apply (get_city_info_reads_back "tokyo" "  TOKYO " tokyo).
  - simpl. right. right. left. reflexivity.
  - reflexivity.
Defined.

End TablesMore.

(* ================================================================= *)
(** ** [call_agent] *)

Section CallAgent.

(** X24: [call_agent] answers with the first final response and looks no
    further: when no event before [event] is final and [event] is, the
    call returns the text of [event] and prints it once, whatever events
    follow; when no event is final it returns [None] and prints
    nothing. *)
Theorem call_agent_first_final (before after : list Event) (event : Event)
    (final_response : string) :
  Forall (fun e => is_final_response e = false) before ->
  is_final_response event = true ->
  first_part_text event = Some final_response ->
  call_agent (app before (event :: after)) =
    (Responded final_response, [ "Agent Response: " ++ final_response ]) /\
  call_agent before = (NoResponse, []).
Proof.
  intros Hb Hf Ht. induction Hb as [| e l He Hl IH].
  - simpl. rewrite Hf, Ht. split; reflexivity.
  - simpl. rewrite He. exact IH.
Qed.

Lemma call_agent_first_final_witness :
  call_agent (app [ mkEvent false None; mkEvent false (Some "thinking") ]
                  (mkEvent true (Some "Sunny in Lagos")
                   :: [ mkEvent true (Some "never read") ])) =
    (Responded "Sunny in Lagos", [ "Agent Response: Sunny in Lagos" ]) /\
  call_agent [ mkEvent false None; mkEvent false (Some "thinking") ] =
    (NoResponse, []).
Proof.
  apply (call_agent_first_final
           [ mkEvent false None; mkEvent false (Some "thinking") ]
           [ mkEvent true (Some "never read") ]
           (mkEvent true (Some "Sunny in Lagos")) "Sunny in Lagos").
  - repeat constructor.
  - reflexivity.
  - reflexivity.
Defined.

End CallAgent.
